(** * The participant dashboard's data client

    A shallow embedding of the data-fetching code of
    [src/app/participant-dashboard/page.jsx]: backend discovery
    ([apiService.findWorkingBackend]), the certificate fetch with its
    metadata merge ([fetchIPFSMetadata], [apiService.getCertificates]), the
    balance fetch with its provider fallback ([apiService.getBalance],
    [fetchDirectBalance]), the network switch ([ensureCorrectNetwork]) and
    the orchestration in [fetchWalletData]; then the rest of the API client
    ([verifyCertificate], [checkHealth]), the readers that prepare a
    certificate for display ([getCertificateName] and its siblings), and
    the two entry points of the component ([checkBackendHealth] and the
    effect that loads the stored wallet).

    JavaScript values are a tagged union, objects are finite maps from
    property names to values, and every [async] function is a computation in
    a state-and-exception monad.  The state holds the two module-level
    variables, the React state the functions write, and a log of the calls
    that left the page.  Rendering and [console] output are not modelled. *)

From Stdlib Require Import ZArith Ascii String List.
From stdpp Require Import base option gmap strings list pretty.

Local Set Warnings "-register-all".
Local Open Scope string_scope.
Local Open Scope Z_scope.
Local Open Scope list_scope.

(** ** JavaScript values *)

(** What [response.json()] can produce, plus [undefined] (the value of an
    absent property).  Numbers are the integers: every number the program
    inspects is a status code, a count or an error code. *)
Inductive value : Type :=
| VUndef
| VNull
| VBool (b : bool)
| VNum (n : Z)
| VStr (s : string)
| VArr (l : list value)
| VObj (m : gmap string value).

(** A completion: a value, or a thrown JavaScript value. *)
Inductive outcome (A : Type) : Type :=
| Ok (a : A)
| Throw (e : value).
Arguments Ok {A} a.
Arguments Throw {A} e.

#[global] Instance outcome_ret : MRet outcome := λ A a, Ok a.
#[global] Instance outcome_bind : MBind outcome := λ A B f r,
  match r with
  | Ok a => f a
  | Throw e => Throw e
  end.

(** [!v] is [negb (truthy v)]. *)
Definition truthy (v : value) : bool :=
  match v with
  | VUndef | VNull => false
  | VBool b => b
  | VNum n => negb (n =? 0)
  | VStr s => negb (String.eqb s "")
  | VArr _ | VObj _ => true
  end.

(** [a || b] *)
Definition or_else (a b : value) : value := if truthy a then a else b.

(** [a === b] for primitives.  On arrays and objects [===] compares
    identity, which the embedding does not track; the program only ever
    compares against string and number literals. *)
Definition strict_eq (a b : value) : bool :=
  match a, b with
  | VUndef, VUndef | VNull, VNull => true
  | VBool x, VBool y => Bool.eqb x y
  | VNum x, VNum y => x =? y
  | VStr x, VStr y => String.eqb x y
  | _, _ => false
  end.

(** The conversion a template literal applies to an interpolated value.
    Numbers are the integers, printed in full: JavaScript does so below
    [1e21] and switches to exponent form from there on. *)
Fixpoint to_string (v : value) : string :=
  match v with
  | VUndef => "undefined"
  | VNull => "null"
  | VBool true => "true"
  | VBool false => "false"
  | VNum n => pretty n
  | VStr s => s
  | VArr l =>
      String.concat ","
        (List.map (λ x, match x with
                        | VUndef | VNull => ""
                        | _ => to_string x
                        end) l)
  | VObj _ => "[object Object]"
  end.

(** A token id that every engine prints in full: a string, or an integer
    within [Number.MAX_SAFE_INTEGER]. *)
Definition plain_token (tokenId : value) : bool :=
  match tokenId with
  | VStr _ => true
  | VNum n => bool_decide (Z.abs n ≤ 9007199254740991)
  | _ => false
  end.

(** [new Error(message)] and the errors the runtime raises itself. *)
Definition Error (message : string) : value :=
  VObj {[ "message" := VStr message ]}.
Definition TypeError (message : string) : value :=
  VObj (<[ "name" := VStr "TypeError" ]> {[ "message" := VStr message ]}).
Definition SyntaxError (message : string) : value :=
  VObj (<[ "name" := VStr "SyntaxError" ]> {[ "message" := VStr message ]}).

(** The own enumerable properties of a value: what an object spread
    [{...v}] copies.  Arrays and strings contribute their indexed elements,
    [null], [undefined], booleans and numbers nothing. *)
Definition own_props (v : value) : gmap string value :=
  match v with
  | VObj m => m
  | VArr l => list_to_map (imap (λ (i : nat) x, (pretty i, x)) l)
  | VStr s =>
      list_to_map
        (imap (λ (i : nat) c, (pretty i, VStr (String c EmptyString)))
              (list_ascii_of_string s))
  | VUndef | VNull | VBool _ | VNum _ => ∅
  end.

(** [{...target, ...source}]: the properties of [source] are written over
    those already in [target]. *)
Definition spread (target : gmap string value) (source : value)
  : gmap string value :=
  own_props source ∪ target.

(** The property read [v.k] of a data property.  Reading from [null] or
    [undefined] throws a [TypeError]; methods found on prototypes
    ([startsWith], [map]) are modelled where they are called.  The message
    of that error is worded by the engine: the text below is V8's, and no
    statement of this development depends on it. *)
Definition get (v : value) (k : string) : outcome value :=
  match v with
  | VUndef | VNull =>
      Throw (TypeError ("Cannot read properties of " +:+ to_string v
                        +:+ " (reading '" +:+ k +:+ "')"))
  | VObj m => Ok (default VUndef (m !! k))
  | VArr l =>
      Ok (if decide (k = "length") then VNum (Z.of_nat (length l))
          else default VUndef (own_props v !! k))
  | VStr s =>
      Ok (if decide (k = "length") then VNum (Z.of_nat (String.length s))
          else default VUndef (own_props v !! k))
  | VBool _ | VNum _ => Ok VUndef
  end.

(** [s.replace(pat, rep)] with a string pattern: the first occurrence only. *)
Fixpoint replace_first (pat rep s : string) : string :=
  if String.prefix pat s then
    rep +:+ String.substring (String.length pat)
                             (String.length s - String.length pat) s
  else
    match s with
    | EmptyString => EmptyString
    | String c s' => String c (replace_first pat rep s')
    end.

(** ** The world outside the page *)

(** The [Response] of a [fetch]: [body] is [None] when [response.json()]
    rejects because the body is not JSON. *)
Record response : Type := {
  status : Z;
  statusText : string;
  body : option value
}.

(** [response.ok] *)
Definition ok (r : response) : bool :=
  (200 <=? status r) && (status r <=? 299).

Inductive reply : Type :=
| NetworkFailure (message : string)
| Responded (r : response).

(** [window.ethereum], with the balance read that [ethers.BrowserProvider]
    performs through it. *)
Record provider : Type := {
  eth_request : string → value → outcome value;
  provider_getBalance : string → outcome Z
}.

(** How the network and the wallet answer during one run.  A URL answers the
    same way every time it is fetched; concurrent branches of the program
    share no other state, so their results do not depend on how they
    interleave. *)
Record world : Type := {
  network : string → reply;
  ethereum : option provider
}.

(** A call that left the page. *)
Inductive event : Type :=
| Fetch (url : string)
| Request (method : string) (params : value)
| GetBalance (address : string).

(** ** Program state *)

(** The module-level [let] variables, the React state written by the data
    functions, and the calls made so far (oldest first). *)
Record state : Type := {
  API_BASE_URL : string;
  HEALTH_URL : string;
  balance : value;
  certificates : value;
  certificateCount : value;
  loading : bool;
  metadataLoading : bool;
  error : value;
  log : list event
}.

Definition initial_state : state := {|
  API_BASE_URL := "http://localhost:5000/api";
  HEALTH_URL := "http://localhost:5000/health";
  balance := VNull;
  certificates := VArr [];
  certificateCount := VNum 0;
  loading := true;
  metadataLoading := false;
  error := VNull;
  log := []
|}.

Definition with_API_BASE_URL (x : string) (st : state) : state :=
  {| API_BASE_URL := x; HEALTH_URL := HEALTH_URL st; balance := balance st;
     certificates := certificates st;
     certificateCount := certificateCount st; loading := loading st;
     metadataLoading := metadataLoading st; error := error st;
     log := log st |}.
Definition with_HEALTH_URL (x : string) (st : state) : state :=
  {| API_BASE_URL := API_BASE_URL st; HEALTH_URL := x; balance := balance st;
     certificates := certificates st;
     certificateCount := certificateCount st; loading := loading st;
     metadataLoading := metadataLoading st; error := error st;
     log := log st |}.
Definition with_balance (x : value) (st : state) : state :=
  {| API_BASE_URL := API_BASE_URL st; HEALTH_URL := HEALTH_URL st;
     balance := x; certificates := certificates st;
     certificateCount := certificateCount st; loading := loading st;
     metadataLoading := metadataLoading st; error := error st;
     log := log st |}.
Definition with_certificates (x : value) (st : state) : state :=
  {| API_BASE_URL := API_BASE_URL st; HEALTH_URL := HEALTH_URL st;
     balance := balance st; certificates := x;
     certificateCount := certificateCount st; loading := loading st;
     metadataLoading := metadataLoading st; error := error st;
     log := log st |}.
Definition with_certificateCount (x : value) (st : state) : state :=
  {| API_BASE_URL := API_BASE_URL st; HEALTH_URL := HEALTH_URL st;
     balance := balance st; certificates := certificates st;
     certificateCount := x; loading := loading st;
     metadataLoading := metadataLoading st; error := error st;
     log := log st |}.
Definition with_loading (x : bool) (st : state) : state :=
  {| API_BASE_URL := API_BASE_URL st; HEALTH_URL := HEALTH_URL st;
     balance := balance st; certificates := certificates st;
     certificateCount := certificateCount st; loading := x;
     metadataLoading := metadataLoading st; error := error st;
     log := log st |}.
Definition with_metadataLoading (x : bool) (st : state) : state :=
  {| API_BASE_URL := API_BASE_URL st; HEALTH_URL := HEALTH_URL st;
     balance := balance st; certificates := certificates st;
     certificateCount := certificateCount st; loading := loading st;
     metadataLoading := x; error := error st;
     log := log st |}.
Definition with_error (x : value) (st : state) : state :=
  {| API_BASE_URL := API_BASE_URL st; HEALTH_URL := HEALTH_URL st;
     balance := balance st; certificates := certificates st;
     certificateCount := certificateCount st; loading := loading st;
     metadataLoading := metadataLoading st; error := x;
     log := log st |}.
Definition with_log (x : list event) (st : state) : state :=
  {| API_BASE_URL := API_BASE_URL st; HEALTH_URL := HEALTH_URL st;
     balance := balance st; certificates := certificates st;
     certificateCount := certificateCount st; loading := loading st;
     metadataLoading := metadataLoading st; error := error st;
     log := x |}.

(** Append one call to the log. *)
Definition logged (ev : event) (st : state) : state :=
  with_log (log st ++ [ev]) st.

(** ** Asynchronous functions *)

(** An [async] function body: it runs from a state to a completion and a
    new state.  [await]ing a rejected promise is [Throw]. *)
Definition M (A : Type) : Type := state → outcome A * state.

#[global] Instance M_ret : MRet M := λ A a st, (Ok a, st).
#[global] Instance M_bind : MBind M := λ A B f m st,
  match m st with
  | (Ok a, st') => f a st'
  | (Throw e, st') => (Throw e, st')
  end.

Definition throw {A : Type} (e : value) : M A := λ st, (Throw e, st).

(** A synchronous expression evaluated inside an [async] body. *)
Definition lift {A : Type} (r : outcome A) : M A := λ st, (r, st).

(** Run to completion and hand back the completion itself:
    one branch of [Promise.allSettled], or the body of a [try]. *)
Definition settle {A : Type} (m : M A) : M (outcome A) := λ st,
  let (r, st') := m st in (Ok r, st').

(** [try { body } catch (e) { handler e }] *)
Definition try_catch {A : Type} (body : M A) (handler : value → M A) : M A :=
  r ← settle body;
  match r with
  | Ok a => mret a
  | Throw e => handler e
  end.

(** Every promise of the list runs to completion, whatever the others do. *)
Fixpoint run_all {A : Type} (ms : list (M A)) : M (list (outcome A)) :=
  match ms with
  | [] => mret []
  | m :: ms' => r ← settle m; rs ← run_all ms'; mret (r :: rs)
  end.

(** The results if all fulfilled, otherwise the first rejection. *)
Fixpoint all_fulfilled {A : Type} (rs : list (outcome A)) : outcome (list A) :=
  match rs with
  | [] => Ok []
  | Ok a :: rs' => l ← all_fulfilled rs'; mret (a :: l)
  | Throw e :: _ => Throw e
  end.

(** [Promise.all] *)
Definition Promise_all {A : Type} (ms : list (M A)) : M (list A) :=
  rs ← run_all ms; lift (all_fulfilled rs).

Definition get_state {A : Type} (f : state → A) : M A := λ st, (Ok (f st), st).
Definition modify (f : state → state) : M unit := λ st, (Ok tt, f st).

Definition setBalance (x : value) : M unit := modify (with_balance x).
Definition setCertificates (x : value) : M unit := modify (with_certificates x).
Definition setCertificateCount (x : value) : M unit :=
  modify (with_certificateCount x).
Definition setLoading (x : bool) : M unit := modify (with_loading x).
Definition setMetadataLoading (x : bool) : M unit :=
  modify (with_metadataLoading x).
Definition setError (x : value) : M unit := modify (with_error x).

(** [response.json()] *)
Definition json (r : response) : M value :=
  match body r with
  | Some v => mret v
  | None => throw (SyntaxError "Unexpected token in JSON")
  end.

(** ** The page's functions *)

(** [POSSIBLE_BACKEND_URLS] *)
Definition POSSIBLE_BACKEND_URLS : list string :=
  [ "http://localhost:5000"; "http://localhost:3001"; "http://127.0.0.1:5000" ].

(** [apothemChainId] *)
Definition apothemChainId : string := "0x33".

(** The chain definition passed to [wallet_addEthereumChain]. *)
Definition apothemChain : value :=
  VObj (<[ "chainId" := VStr apothemChainId ]>
       (<[ "chainName" := VStr "XDC Apothem Network" ]>
       (<[ "nativeCurrency" :=
             VObj (<[ "name" := VStr "XDC" ]>
                  (<[ "symbol" := VStr "XDC" ]>
                   {[ "decimals" := VNum 18 ]})) ]>
       (<[ "rpcUrls" := VArr [VStr "https://erpc.apothem.network"] ]>
        {[ "blockExplorerUrls" :=
             VArr [VStr "https://explorer.apothem.network/"] ]})))).

(** [resolveIPFS(uri)].  Calling [uri.startsWith] on a truthy value that is
    not a string throws: no other JSON value has that method. *)
Definition resolveIPFS (uri : value) : outcome string :=
  if negb (truthy uri) then Ok ""
  else
    match uri with
    | VStr s =>
        if String.prefix "ipfs://" s
        then Ok (replace_first "ipfs://" "https://ipfs.io/ipfs/" s)
        else Ok s
    | _ => Throw (TypeError "uri.startsWith is not a function")
    end.

Section Dashboard.

(** [ethers.formatEther]: the decimal rendering of a raw balance, from the
    ethers library. *)
Variable formatEther : Z → string.

Variable w : world.

(** [fetch(url)]: rejects when the request cannot be completed, resolves
    with the response otherwise, whatever its status. *)
Definition fetch (url : string) : M response := λ st,
  match network w url with
  | NetworkFailure message => (Throw (TypeError message), logged (Fetch url) st)
  | Responded r => (Ok r, logged (Fetch url) st)
  end.

(** [fetchIPFSMetadata(tokenURI)] *)
Definition fetchIPFSMetadata (tokenURI : value) : M value :=
  try_catch
    (if negb (truthy tokenURI) then mret VNull
     else
       resolvedURL ← lift (resolveIPFS tokenURI);
       response ← fetch resolvedURL;
       if negb (ok response) then
         throw (Error ("Failed to fetch metadata: " +:+ pretty (status response)))
       else
         metadata ← json response;
         mret metadata)
    (λ error, mret VNull).

(** The [try] block of the callback that [getCertificates] maps over the
    certificates: [{ ...cert, metadata: metadata, ...metadata }]. *)
Definition augment_try (cert : value) : M value :=
  tokenURI ← lift (get cert "tokenURI");
  metadata ← fetchIPFSMetadata tokenURI;
  mret (VObj (spread (<[ "metadata" := metadata ]> (spread ∅ cert)) metadata)).

(** Its [catch] block; the message it logs reads [cert.tokenId]. *)
Definition augment_catch (cert : value) (error : value) : M value :=
  _ ← lift (get cert "tokenId");
  mret cert.

(** The callback [async (cert) => { try ... catch ... }]. *)
Definition augment (cert : value) : M value :=
  try_catch (augment_try cert) (augment_catch cert).

(** [apiService.getCertificates(walletAddress)] *)
Definition getCertificates (walletAddress : string) : M value :=
  try_catch
    (base ← get_state API_BASE_URL;
     response ← fetch (base +:+ "/certificates/wallet/" +:+ walletAddress);
     if negb (ok response) then
       throw (Error ("Failed to fetch certificates: "
                     +:+ pretty (status response) +:+ " "
                     +:+ statusText response))
     else
       data ← json response;
       success ← lift (get data "success");
       both ← (if truthy success then lift (get data "certificates")
               else mret success);
       if truthy both then
         match both with
         | VArr certs =>
             certificatesWithMetadata ← Promise_all (augment <$> certs);
             mret (VObj (<[ "certificates" := VArr certificatesWithMetadata ]>
                           (spread ∅ data)))
         | _ => throw (TypeError "data.certificates.map is not a function")
         end
       else mret data)
    (λ error, throw error).

(** [apiService.getBalance(walletAddress)] *)
Definition getBalance (walletAddress : string) : M value :=
  try_catch
    (base ← get_state API_BASE_URL;
     response ← fetch (base +:+ "/wallet/" +:+ walletAddress +:+ "/balance");
     if negb (ok response) then
       throw (Error ("Failed to fetch balance: "
                     +:+ pretty (status response) +:+ " "
                     +:+ statusText response))
     else json response)
    (λ error, throw error).

(** One pass of the [for ... of] loop of [findWorkingBackend] over the
    candidates still to try.  The [try] block either returns the health
    payload ([Some]) or falls through to the next candidate ([None]); the
    [catch] block reads [error.message] and continues. *)
Fixpoint findWorkingBackend_loop (candidates : list string) : M value :=
  match candidates with
  | [] => throw (Error "No backend server found. Please start your backend server.")
  | baseUrl :: rest =>
      attempt ← settle
        (response ← fetch (baseUrl +:+ "/health");
         if ok response then
           modify (with_API_BASE_URL (baseUrl +:+ "/api"));;
           modify (with_HEALTH_URL (baseUrl +:+ "/health"));;
           payload ← json response;
           mret (Some payload)
         else mret None);
      match attempt with
      | Ok (Some payload) => mret payload
      | Ok None => findWorkingBackend_loop rest
      | Throw error =>
          _ ← lift (get error "message");
          findWorkingBackend_loop rest
      end
  end.

(** [apiService.findWorkingBackend()] *)
Definition findWorkingBackend : M value :=
  findWorkingBackend_loop POSSIBLE_BACKEND_URLS.

(** [window.ethereum.request({ method, params })] *)
Definition request (p : provider) (method : string) (params : value) : M value :=
  λ st, (eth_request p method params, logged (Request method params) st).

(** [ensureCorrectNetwork()] *)
Definition ensureCorrectNetwork : M unit :=
  match ethereum w with
  | None => mret tt
  | Some p =>
      chainId ← request p "eth_chainId" VUndef;
      if negb (strict_eq chainId (VStr apothemChainId)) then
        try_catch
          (request p "wallet_switchEthereumChain"
                   (VArr [VObj {[ "chainId" := VStr apothemChainId ]}]);;
           mret tt)
          (λ switchError,
             code ← lift (get switchError "code");
             if strict_eq code (VNum 4902) then
               request p "wallet_addEthereumChain" (VArr [apothemChain]);;
               mret tt
             else throw switchError)
      else mret tt
  end.

(** [new ethers.BrowserProvider(window.ethereum).getBalance(address)] *)
Definition readBalance (p : provider) (address : string) : M Z :=
  λ st, (provider_getBalance p address, logged (GetBalance address) st).

(** [fetchDirectBalance(address)] *)
Definition fetchDirectBalance (address : string) : M unit :=
  try_catch
    (match ethereum w with
     | None => mret tt
     | Some p =>
         bal ← readBalance p address;
         setBalance (VStr (formatEther bal))
     end)
    (λ err, setBalance (VStr "Unable to load")).

(** The block of [fetchWalletData] under "Handle certificates response". *)
Definition handleCertificates (certificatesResponse : outcome value) : M unit :=
  match certificatesResponse with
  | Ok certsData =>
      success ← lift (get certsData "success");
      if truthy success then
        found ← lift (get certsData "certificates");
        let certs := or_else found (VArr []) in
        setCertificates certs;;
        count ← lift (get certsData "count");
        len ← (if truthy count then mret count else lift (get certs "length"));
        setCertificateCount len
      else
        message ← lift (get certsData "error");
        throw (Error (to_string (or_else message
                                         (VStr "Failed to fetch certificates"))))
  | Throw reason =>
      setCertificates (VArr []);;
      setCertificateCount (VNum 0)
  end.

(** The block of [fetchWalletData] under "Handle balance response". *)
Definition handleBalance (address : string) (balanceResponse : outcome value)
  : M unit :=
  match balanceResponse with
  | Ok balanceData =>
      success ← lift (get balanceData "success");
      if truthy success then
        bal ← lift (get balanceData "balance");
        formatted ← lift (get bal "formatted");
        setBalance formatted
      else fetchDirectBalance address
  | Throw reason => fetchDirectBalance address
  end.

(** The [try] block of [fetchWalletData].  The two branches of
    [Promise.allSettled] are run one after the other: each reads
    [API_BASE_URL] when it starts and neither writes state the other reads.
    The call log therefore lists the metadata requests of [getCertificates]
    before the balance request, whereas the browser sends the certificate
    request, then the balance request, then the metadata requests; the
    statements below do not rely on the place of the balance request among
    the metadata requests. *)
Definition fetchWalletData_try (address : string) : M unit :=
  setLoading true;;
  setMetadataLoading true;;
  setError VNull;;
  ensureCorrectNetwork;;
  certificatesResponse ← settle (getCertificates address);
  balanceResponse ← settle (getBalance address);
  handleCertificates certificatesResponse;;
  handleBalance address balanceResponse;;
  setLoading false;;
  setMetadataLoading false.

(** Its [catch] block. *)
Definition fetchWalletData_catch (err : value) : M unit :=
  message ← lift (get err "message");
  setError (VStr ("Failed to load dashboard data: " +:+ to_string message));;
  setLoading false;;
  setMetadataLoading false.

(** [fetchWalletData(address)] *)
Definition fetchWalletData (address : string) : M unit :=
  try_catch (fetchWalletData_try address) fetchWalletData_catch.

End Dashboard.

(** ** Vocabulary of the statements *)

(** Whether the metadata request behind a locator came back unusable:
    network error, non-2xx status, or a body that is not JSON. *)
Definition fetch_failed (r : reply) : bool :=
  match r with
  | NetworkFailure _ => true
  | Responded r => negb (ok r) || bool_decide (body r = None)
  end.

(** The probe of a candidate was answered with a 2xx status. *)
Definition answers_2xx (r : reply) : bool :=
  match r with
  | NetworkFailure _ => false
  | Responded r => ok r
  end.

(** The probe was answered with a 2xx status and a body that is JSON. *)
Definition answers_json (r : reply) : bool :=
  match r with
  | NetworkFailure _ => false
  | Responded r => ok r && bool_decide (body r ≠ None)
  end.

(** The probe sent for a candidate. *)
Definition probe (baseUrl : string) : event := Fetch (baseUrl +:+ "/health").

(** The three requests [ensureCorrectNetwork] can send to the wallet. *)
Definition chainIdRequest : event := Request "eth_chainId" VUndef.
Definition switchParams : value :=
  VArr [VObj {[ "chainId" := VStr apothemChainId ]}].
Definition switchRequest : event :=
  Request "wallet_switchEthereumChain" switchParams.
Definition addChainRequest : event :=
  Request "wallet_addEthereumChain" (VArr [apothemChain]).

(** The balance request to the backend did not produce a balance: the call
    failed, the status is not 2xx, the body is not JSON, or the payload's
    [success] is falsy. *)
Definition backend_balance_failed (r : reply) : bool :=
  match r with
  | NetworkFailure _ => true
  | Responded r =>
      negb (ok r) ||
      match body r with
      | None => true
      | Some balanceData =>
          match get balanceData "success" with
          | Ok success => negb (truthy success)
          | Throw _ => false
          end
      end
  end.

(** A computation that changes nothing in the state but the log. *)
Definition only_logs {A : Type} (m : M A) : Prop :=
  ∀ st, ∃ l, snd (m st) = with_log l st.


(** The state in which the [try] block of [fetchWalletData] reaches the
    network switch. *)
Definition loading_started (st : state) : state :=
  with_error VNull (with_metadataLoading true (with_loading true st)).

(** ** Example worlds and records *)

(** A response with the given status and JSON body. *)
Definition replied (code : Z) (payload : option value) : reply :=
  Responded {| status := code; statusText := ""; body := payload |}.

(** A network on which only the listed URLs answer. *)
Fixpoint serving (table : list (string * reply)) (url : string) : reply :=
  match table with
  | [] => NetworkFailure "Failed to fetch"
  | (u, r) :: rest => if String.eqb url u then r else serving rest url
  end.

(** [{ tokenId: 1, tokenURI: "ipfs://X" }] *)
Definition cert_X : gmap string value :=
  <[ "tokenId" := VNum 1 ]> {[ "tokenURI" := VStr "ipfs://X" ]}.

(** [{ tokenId: 1, tokenURI: "ipfs://X", name: "raw" }] *)
Definition cert_named : gmap string value :=
  <[ "name" := VStr "raw" ]> cert_X.

(** [{ tokenId: 2 }]: a record without content locator. *)
Definition cert_bare : gmap string value := {[ "tokenId" := VNum 2 ]}.

(** Nothing answers and no wallet is installed. *)
Definition world_offline : world :=
  {| network := serving []; ethereum := None |}.

(** The gateway serves [{ name: "meta", tokenId: 7 }] for [ipfs://X]. *)
Definition world_metadata : world :=
  {| network := serving
       [ ("https://ipfs.io/ipfs/X",
          replied 200 (Some (VObj (<[ "name" := VStr "meta" ]>
                                   {[ "tokenId" := VNum 7 ]})))) ];
     ethereum := None |}.

(** The backend on port 5000 is down, the one on port 3001 answers its
    health check with [{ status: "OK" }]. *)
Definition world_second_backend : world :=
  {| network := serving
       [ ("http://localhost:3001/health",
          replied 200 (Some (VObj {[ "status" := VStr "OK" ]}))) ];
     ethereum := None |}.

(** Something on port 5000 answers the health check with a 200 page that is
    not JSON; the backend itself listens on port 3001. *)
Definition world_foreign_server : world :=
  {| network := serving
       [ ("http://localhost:5000/health", replied 200 None);
         ("http://localhost:3001/health",
          replied 200 (Some (VObj {[ "status" := VStr "OK" ]}))) ];
     ethereum := None |}.

(** A wallet on another chain that does not know the Apothem chain: the
    switch is refused with code 4902, registering the chain succeeds. *)
Definition wallet_unknown_chain : provider :=
  {| eth_request := λ method params,
       if String.eqb method "eth_chainId" then Ok (VStr "0x1")
       else if String.eqb method "wallet_switchEthereumChain" then
         Throw (VObj (<[ "code" := VNum 4902 ]>
                      {[ "message" := VStr "Unrecognized chain ID" ]}))
       else Ok VNull;
     provider_getBalance := λ address, Ok 1500000000000000000 |}.

(** That wallet, with the backend down. *)
Definition world_unknown_chain : world :=
  {| network := serving []; ethereum := Some wallet_unknown_chain |}.

(** A wallet already on the Apothem chain, holding 1.5 XDC. *)
Definition wallet_apothem : provider :=
  {| eth_request := λ method params,
       if String.eqb method "eth_chainId" then Ok (VStr "0x33") else Ok VNull;
     provider_getBalance := λ address, Ok 1500000000000000000 |}.

(** Leading zeros of a digit list. *)
Fixpoint drop_zeros (digits : list ascii) : list ascii :=
  match digits with
  | "0"%char :: rest => drop_zeros rest
  | _ => digits
  end.

(** An instance of [formatEther] for the examples, after ethers'
    [formatUnits] at 18 decimals: the integer part, a point, and the
    fraction without trailing zeros but with at least one digit. *)
Definition formatEther_decimal (wei : Z) : string :=
  let whole := Z.abs wei / 10 ^ 18 in
  let part := list_ascii_of_string (pretty (Z.abs wei mod 10 ^ 18)) in
  let padded := replicate (18 - length part) "0"%char ++ part in
  let fraction :=
    match drop_zeros (rev padded) with
    | [] => "0"
    | kept => string_of_list_ascii (rev kept)
    end in
  (if wei <? 0 then "-" else "") +:+ pretty whole +:+ "." +:+ fraction.

(** The backend is down; the wallet is installed, on the right chain. *)
Definition world_wallet_only : world :=
  {| network := serving []; ethereum := Some wallet_apothem |}.

(** The backend answers the certificate request with
    [{ success: false, error: "boom" }]; no wallet is installed. *)
Definition world_backend_refuses : world :=
  {| network := serving
       [ ("http://localhost:5000/api/certificates/wallet/0xabc",
          replied 200 (Some (VObj (<[ "success" := VBool false ]>
                                   {[ "error" := VStr "boom" ]})))) ];
     ethereum := None |}.

(** The backend lists the record [{ tokenId: 1, tokenURI: "ipfs://X" }] for
    wallet [0xabc]; the gateway is unreachable. *)
Definition world_gateway_down : world :=
  {| network := serving
       [ ("http://localhost:5000/api/certificates/wallet/0xabc",
          replied 200 (Some (VObj (<[ "success" := VBool true ]>
                                   {[ "certificates" := VArr [VObj cert_X] ]})))) ];
     ethereum := None |}.


(** The dashboard after a first load that found one certificate. *)
Definition state_loaded : state :=
  with_certificateCount (VNum 1)
    (with_certificates (VArr [VObj cert_X]) (with_loading false initial_state)).

(** ** The rest of the API client *)

Section Client.

Variable w : world.

(** [apiService.verifyCertificate(tokenId)] *)
Definition verifyCertificate (tokenId : value) : M value :=
  base ← get_state API_BASE_URL;
  response ← fetch w (base +:+ "/verify/" +:+ to_string tokenId);
  if negb (ok response) then
    throw (Error ("Failed to verify certificate: " +:+ statusText response))
  else json response.

(** [apiService.checkHealth()] *)
Definition checkHealth : M value :=
  url ← get_state HEALTH_URL;
  response ← fetch w url;
  if negb (ok response) then
    throw (Error ("Backend health check failed: " +:+ statusText response))
  else json response.

End Client.

(** ** Reading a certificate for display *)

(** [v?.k] *)
Definition get_optional (v : value) (k : string) : outcome value :=
  match v with
  | VUndef | VNull => Ok VUndef
  | _ => get v k
  end.

(** [a || b], where [b] is evaluated only if [a] is falsy. *)
Definition or_lazy (a : value) (b : outcome value) : outcome value :=
  if truthy a then Ok a else b.

(** [cert.k || cert.metadata?.k || rest], the pattern all the readers share. *)
Definition own_or_metadata (cert : value) (k : string) (rest : outcome value)
  : outcome value :=
  own ← get cert k;
  or_lazy own
    (metadata ← get cert "metadata";
     inherited ← get_optional metadata k;
     or_lazy inherited rest).

(** [getCertificateImage(cert)] *)
Definition getCertificateImage (cert : value) : outcome value :=
  own_or_metadata cert "image" (Ok VNull).

(** [getCertificateName(cert)] *)
Definition getCertificateName (cert : value) : outcome value :=
  own_or_metadata cert "name"
    (tokenId ← get cert "tokenId";
     Ok (VStr ("Certificate #" +:+ to_string tokenId))).

(** [getCertificateDescription(cert)] *)
Definition getCertificateDescription (cert : value) : outcome value :=
  own_or_metadata cert "description" (Ok (VStr "")).

(** [getCertificateAttributes(cert)] *)
Definition getCertificateAttributes (cert : value) : outcome value :=
  own_or_metadata cert "attributes" (Ok (VArr [])).

(** [attrs.find(attr => attr.trait_type === name)] on the elements of an
    array: the first match, [undefined] if there is none. *)
Fixpoint find_trait (name : string) (attrs : list value) : outcome value :=
  match attrs with
  | [] => Ok VUndef
  | attr :: rest =>
      trait ← get attr "trait_type";
      if strict_eq trait (VStr name) then Ok attr else find_trait name rest
  end.

(** [getCertificateAttributes(cert).find(attr => attr.trait_type === name)?.value].
    Only arrays have a [find] method. *)
Definition trait_value (cert : value) (name : string) : outcome value :=
  attributes ← getCertificateAttributes cert;
  match attributes with
  | VArr attrs => found ← find_trait name attrs; get_optional found "value"
  | _ => Throw (TypeError "getCertificateAttributes(...).find is not a function")
  end.

(** [getEventName(cert)] *)
Definition getEventName (cert : value) : outcome value :=
  own_or_metadata cert "event_name"
    (found ← trait_value cert "Event"; or_lazy found (Ok (VStr ""))).

(** [getRecipientName(cert)] *)
Definition getRecipientName (cert : value) : outcome value :=
  own_or_metadata cert "recipient_name"
    (found ← trait_value cert "Recipient"; or_lazy found (Ok (VStr ""))).

(** [getDateIssued(cert)] *)
Definition getDateIssued (cert : value) : outcome value :=
  own_or_metadata cert "date_issued"
    (found ← trait_value cert "Date Issued"; or_lazy found (Ok (VStr ""))).

(** [getCertificateLevel(cert)] *)
Definition getCertificateLevel (cert : value) : outcome value :=
  found ← trait_value cert "Level"; or_lazy found (Ok (VStr "")).

(** [attr.trait_type.startsWith('Skill')]: only a string has [startsWith]. *)
Definition is_skill (attr : value) : outcome bool :=
  trait ← get attr "trait_type";
  match trait with
  | VStr s => Ok (String.prefix "Skill" s)
  | _ => Throw (TypeError "attr.trait_type.startsWith is not a function")
  end.

(** [attrs.filter(attr => attr.trait_type.startsWith('Skill'))] *)
Fixpoint filter_skills (attrs : list value) : outcome (list value) :=
  match attrs with
  | [] => Ok []
  | attr :: rest =>
      is_skill attr ≫= λ keep : bool,
      kept ← filter_skills rest;
      Ok (if keep then attr :: kept else kept)
  end.

(** [attrs.map(attr => attr.value)] *)
Fixpoint map_value (attrs : list value) : outcome (list value) :=
  match attrs with
  | [] => Ok []
  | attr :: rest =>
      v ← get attr "value";
      vs ← map_value rest;
      Ok (v :: vs)
  end.

(** [getSkills(cert)]. Only arrays have a [filter] method. *)
Definition getSkills (cert : value) : outcome value :=
  attributes ← getCertificateAttributes cert;
  match attributes with
  | VArr attrs =>
      kept ← filter_skills attrs;
      skills ← map_value kept;
      Ok (VArr skills)
  | _ => Throw (TypeError "getCertificateAttributes(...).filter is not a function")
  end.

(** ** The component around the data functions *)

(** The rest of the component's React state, around the part the data
    functions write. *)
Record page : Type := {
  data : state;
  wallet : option string;
  metaMaskInstalled : bool;
  isClient : bool;
  backendStatus : value
}.

Definition initial_page : page := {|
  data := initial_state;
  wallet := None;
  metaMaskInstalled := true;
  isClient := false;
  backendStatus := VNull
|}.

Definition with_data (x : state) (pg : page) : page :=
  {| data := x; wallet := wallet pg; metaMaskInstalled := metaMaskInstalled pg;
     isClient := isClient pg; backendStatus := backendStatus pg |}.
Definition with_wallet (x : option string) (pg : page) : page :=
  {| data := data pg; wallet := x; metaMaskInstalled := metaMaskInstalled pg;
     isClient := isClient pg; backendStatus := backendStatus pg |}.
Definition with_metaMaskInstalled (x : bool) (pg : page) : page :=
  {| data := data pg; wallet := wallet pg; metaMaskInstalled := x;
     isClient := isClient pg; backendStatus := backendStatus pg |}.
Definition with_isClient (x : bool) (pg : page) : page :=
  {| data := data pg; wallet := wallet pg; metaMaskInstalled := metaMaskInstalled pg;
     isClient := x; backendStatus := backendStatus pg |}.
Definition with_backendStatus (x : value) (pg : page) : page :=
  {| data := data pg; wallet := wallet pg; metaMaskInstalled := metaMaskInstalled pg;
     isClient := isClient pg; backendStatus := x |}.

(** [!storedWallet], [!wallet]: [null] and the empty string are falsy. *)
Definition no_address (a : option string) : bool :=
  match a with
  | None => true
  | Some s => String.eqb s ""
  end.

Section Component.

Variable formatEther : Z → string.
Variable w : world.

(** [checkBackendHealth()] *)
Definition checkBackendHealth (pg : page) : outcome unit * page :=
  match findWorkingBackend w (data pg) with
  | (Ok health, st) => (Ok tt, with_backendStatus health (with_data st pg))
  | (Throw err, st) =>
      match get err "message" with
      | Ok message =>
          (Ok tt,
           with_backendStatus
             (VObj (<[ "status" := VStr "ERROR" ]> {[ "message" := message ]}))
             (with_data st pg))
      | Throw e => (Throw e, with_data st pg)
      end
  end.

(** The second effect, run when [isClient] changes; [storedWallet] is what
    [localStorage] holds under ["walletAddress"]. The load it starts is
    followed to its end; the effect itself does not wait for it and does not
    see its outcome. *)
Definition walletEffect (storedWallet : option string) (pg : page) : page :=
  if negb (isClient pg) then pg
  else
    match ethereum w with
    | None => with_metaMaskInstalled false pg
    | Some _ =>
        if no_address storedWallet then
          with_data
            (with_loading false
               (with_error
                  (VStr "No wallet connected! Please connect your wallet first.")
                  (data pg)))
            pg
        else
          let pg1 := with_wallet storedWallet pg in
          with_data
            (snd (fetchWalletData formatEther w (default "" storedWallet) (data pg1)))
            pg1
    end.

End Component.

(** ** Vocabulary of the further statements *)

(** The metadata request, if any, that the callback of [getCertificates]
    makes for a record: one for a non-empty string locator, none otherwise. *)
Definition metadata_calls (cert : gmap string value) : list event :=
  match cert !! "tokenURI" with
  | Some (VStr s) =>
      if String.eqb s "" then []
      else match resolveIPFS (VStr s) with
           | Ok url => [Fetch url]
           | Throw _ => []
           end
  | _ => []
  end.

(** The reply carries a payload on which [getCertificates] goes on to fetch
    metadata: 2xx, JSON, a truthy [success] and an array of certificates. *)
Definition lists_certificates (r : reply) : bool :=
  match r with
  | NetworkFailure _ => false
  | Responded r =>
      ok r &&
      match body r with
      | Some data =>
          match get data "success", get data "certificates" with
          | Ok success, Ok (VArr _) => truthy success
          | _, _ => false
          end
      | None => false
      end
  end.

(** [API_BASE_URL] and [HEALTH_URL] name the same backend. *)
Definition same_backend (st : state) : Prop :=
  ∃ baseUrl, API_BASE_URL st = baseUrl +:+ "/api" ∧
             HEALTH_URL st = baseUrl +:+ "/health".



(** An attribute as the readers expect it: an object whose [trait_type] is a
    string. *)
Definition well_formed_attribute (attr : value) : bool :=
  match get attr "trait_type" with
  | Ok (VStr _) => true
  | _ => false
  end.

(** The React state written by the data functions is the same in both
    states. *)
Definition same_display (st st' : state) : Prop :=
  balance st' = balance st ∧ certificates st' = certificates st ∧
  certificateCount st' = certificateCount st ∧ loading st' = loading st ∧
  metadataLoading st' = metadataLoading st ∧ error st' = error st.

(** The error [findWorkingBackend] ends with when no candidate is usable. *)
Definition noBackendError : value :=
  Error "No backend server found. Please start your backend server.".

(** What [fetchIPFSMetadata] resolves to for the locator of a record. *)
Definition metadata_of (w : world) (cert : gmap string value) : value :=
  match cert !! "tokenURI" with
  | Some (VStr s) =>
      if String.eqb s "" then VNull
      else match resolveIPFS (VStr s) with
           | Ok url =>
               match network w url with
               | NetworkFailure _ => VNull
               | Responded r => if ok r then default VNull (body r) else VNull
               end
           | Throw _ => VNull
           end
  | _ => VNull
  end.

(** The record the callback of [getCertificates] returns for a record. *)
Definition enriched (w : world) (cert : gmap string value) : value :=
  VObj (own_props (metadata_of w cert) ∪ <[ "metadata" := metadata_of w cert ]> cert).

(** Port 3001 answers the health check with a 200 page that is not JSON;
    nothing else answers. *)
Definition world_stray_server : world :=
  {| network := serving [("http://localhost:3001/health", replied 200 None)];
     ethereum := None |}.

(** The backend answers the balance request with [{ success: true }] and no
    balance; the certificate request fails; a wallet is installed. *)
Definition world_balance_missing : world :=
  {| network := serving
       [ ("http://localhost:5000/api/wallet/0xabc/balance",
          replied 200 (Some (VObj {[ "success" := VBool true ]}))) ];
     ethereum := Some wallet_apothem |}.




(** The attribute's [trait_type] is a string beginning with ["Skill"]. *)
Definition names_skill (attr : value) : bool :=
  match get attr "trait_type" with
  | Ok (VStr s) => String.prefix "Skill" s
  | _ => false
  end.

(** [{ trait_type: name, value: v }] *)
Definition attribute (name : string) (v : value) : value :=
  VObj (<[ "trait_type" := VStr name ]> {[ "value" := v ]}).

(** A record with three attributes, the last of which has no [trait_type]. *)
Definition cert_odd_attribute : gmap string value :=
  <[ "tokenId" := VNum 3 ]>
    {[ "attributes" :=
         VArr [ attribute "Level" (VStr "Gold");
                attribute "Skill 1" (VStr "Proofs");
                VObj {[ "value" := VStr "stray" ]} ] ]}.

(** A record with well-formed attributes only. *)
Definition cert_skilled : gmap string value :=
  <[ "tokenId" := VNum 4 ]>
    {[ "attributes" :=
         VArr [ attribute "Skill 1" (VStr "Proofs");
                attribute "Level" (VStr "Gold");
                attribute "Skill 2" (VStr "Tactics") ] ]}.

(** The page once it runs in the browser. *)
Definition page_on_client : page := with_isClient true initial_page.

(** What [backendStatus] is set to when discovery fails. *)
Definition backendOffline : value :=
  VObj (<[ "status" := VStr "ERROR" ]>
        {[ "message" :=
             VStr "No backend server found. Please start your backend server." ]}).

(** ** Running the monad *)

Lemma bind_run {A B : Type} (m : M A) (f : A → M B) (st : state) :
  (m ≫= f) st =
  match m st with
  | (Ok a, st') => f a st'
  | (Throw e, st') => (Throw e, st')
  end.
Proof. reflexivity. Qed.

Lemma try_catch_run {A : Type} (body : M A) (handler : value → M A) st :
  try_catch body handler st =
  match body st with
  | (Ok a, st') => (Ok a, st')
  | (Throw e, st') => handler e st'
  end.
Proof.
  unfold try_catch, settle. rewrite bind_run.
  destruct (body st) as [[a|e] st']; reflexivity.
Qed.

(** ** Metadata fetch *)

Lemma fetchIPFSMetadata_falsy w tokenURI st :
  truthy tokenURI = false → fetchIPFSMetadata w tokenURI st = (Ok VNull, st).
Proof.
  intros Hf. unfold fetchIPFSMetadata. rewrite try_catch_run, Hf. reflexivity.
Qed.

Lemma fetchIPFSMetadata_unresolvable w tokenURI e st :
  truthy tokenURI = true → resolveIPFS tokenURI = Throw e →
  fetchIPFSMetadata w tokenURI st = (Ok VNull, st).
Proof.
  intros Ht He. unfold fetchIPFSMetadata.
  rewrite try_catch_run, Ht. cbn [negb]. rewrite bind_run.
  unfold lift. rewrite He. reflexivity.
Qed.

Lemma fetchIPFSMetadata_fetched w tokenURI url st :
  truthy tokenURI = true → resolveIPFS tokenURI = Ok url →
  fetchIPFSMetadata w tokenURI st =
  (Ok match network w url with
      | NetworkFailure _ => VNull
      | Responded r => if ok r then default VNull (body r) else VNull
      end,
   logged (Fetch url) st).
Proof.
  intros Ht Hu. unfold fetchIPFSMetadata.
  rewrite try_catch_run, Ht. cbn [negb]. rewrite bind_run.
  unfold lift. rewrite Hu, bind_run. unfold fetch.
  destruct (network w url) as [msg|r]; [reflexivity|].
  destruct (ok r); cbn [negb]; [|reflexivity].
  rewrite bind_run. unfold json.
  destruct (body r); reflexivity.
Qed.

(** The callback's [try] block on a record, in terms of what the metadata
    fetch resolved to. *)
Lemma augment_try_run w (cert : gmap string value) st md st' :
  fetchIPFSMetadata w (default VUndef (cert !! "tokenURI")) st = (Ok md, st') →
  augment_try w (VObj cert) st =
  (Ok (VObj (own_props md ∪ <[ "metadata" := md ]> cert)), st').
Proof.
  intros Hmd. unfold augment_try. rewrite bind_run. cbn [lift get].
  rewrite bind_run, Hmd. unfold spread. cbn [own_props].
  rewrite (right_id_L ∅ (∪)). reflexivity.
Qed.

Lemma augment_run w (cert : gmap string value) st md st' :
  fetchIPFSMetadata w (default VUndef (cert !! "tokenURI")) st = (Ok md, st') →
  augment w (VObj cert) st =
  (Ok (VObj (own_props md ∪ <[ "metadata" := md ]> cert)), st').
Proof.
  intros Hmd. unfold augment.
  rewrite try_catch_run, (augment_try_run _ _ _ _ _ Hmd). reflexivity.
Qed.

(** A failed metadata fetch resolves to [null], and the callback then
    writes [metadata: null] onto a copy of the record. *)
Lemma augment_fetch_failed w (cert : gmap string value) uri url st :
  cert !! "tokenURI" = Some (VStr uri) → truthy (VStr uri) = true →
  resolveIPFS (VStr uri) = Ok url → fetch_failed (network w url) = true →
  augment w (VObj cert) st =
  (Ok (VObj (<[ "metadata" := VNull ]> cert)), logged (Fetch url) st).
Proof.
  intros Hc Ht Hu Hf.
  rewrite (augment_run w cert st VNull (logged (Fetch url) st)).
  - cbn [own_props]. rewrite (left_id_L ∅ (∪)). reflexivity.
  - rewrite Hc. cbn [default]. rewrite (fetchIPFSMetadata_fetched _ _ url) by done.
    destruct (network w url) as [msg|r]; [reflexivity|].
    cbn [fetch_failed] in Hf. destruct (ok r); [|reflexivity].
    cbn [negb orb] in Hf. apply bool_decide_eq_true in Hf. rewrite Hf. reflexivity.
Qed.

(** Whatever the locator and the network, the metadata fetch resolves. *)
Lemma fetchIPFSMetadata_resolves w tokenURI st :
  ∃ v st', fetchIPFSMetadata w tokenURI st = (Ok v, st') ∧
    (v = VNull ∨
     ∃ url r, resolveIPFS tokenURI = Ok url ∧ network w url = Responded r ∧
              ok r = true ∧ body r = Some v).
Proof.
  destruct (truthy tokenURI) eqn:Ht.
  - destruct (resolveIPFS tokenURI) as [url|e] eqn:Hu.
    + eexists _, _. split; [apply (fetchIPFSMetadata_fetched _ _ url); done|].
      destruct (network w url) as [msg|r] eqn:Hn; [by left|].
      destruct (ok r) eqn:Hok; [|by left].
      destruct (body r) as [doc|] eqn:Hb; [|by left].
      right. exists url, r. done.
    + eexists _, _. split; [by eapply fetchIPFSMetadata_unresolvable|by left].
  - eexists _, _. split; [by apply fetchIPFSMetadata_falsy|by left].
Qed.

(** An array element that is [null] is not a record: reading its
    [tokenURI] throws before any fetch, the [catch] block is entered, and
    its own read of [tokenId] throws in turn. *)
Remark augment_null_element w st :
  ∃ e e', augment_try w VNull st = (Throw e, st) ∧
          augment_catch VNull e st = (Throw e', st) ∧
          augment w VNull st = (Throw e', st).
Proof. eexists _, _. repeat split; reflexivity. Qed.


(** ** Claims about the metadata merge *)



(** C9 (as amended). For a record whose [tokenURI] is absent or empty (or any
    other falsy value) the callback makes no network call, and returns the
    record with [metadata: null] written onto it; every other field is as
    it was.  The state, and with it the log of calls, is unchanged. *)
Theorem C9_empty_locator_no_fetch w (cert : gmap string value) st :
  truthy (default VUndef (cert !! "tokenURI")) = false →
  augment w (VObj cert) st = (Ok (VObj (<[ "metadata" := VNull ]> cert)), st) ∧
  ∀ k, k ≠ "metadata" → (<[ "metadata" := VNull ]> cert) !! k = cert !! k.
Proof.
  intros Hf. split.
  - rewrite (augment_run w cert st VNull st).
    + cbn [own_props]. rewrite (left_id_L ∅ (∪)). reflexivity.
    + by apply fetchIPFSMetadata_falsy.
  - intros k Hk. by rewrite lookup_insert_ne.
Qed.

(** The theorem on a record without locator and on one with an empty
    locator. *)
Lemma C9_empty_locator_no_fetch_witness :
  (augment world_metadata (VObj cert_bare) initial_state =
     (Ok (VObj (<[ "metadata" := VNull ]> cert_bare)), initial_state) ∧
   ∀ k, k ≠ "metadata" → (<[ "metadata" := VNull ]> cert_bare) !! k = cert_bare !! k) ∧
  (augment world_metadata (VObj (<[ "tokenURI" := VStr "" ]> cert_bare)) initial_state =
     (Ok (VObj (<[ "metadata" := VNull ]> (<[ "tokenURI" := VStr "" ]> cert_bare))),
      initial_state) ∧
   ∀ k, k ≠ "metadata" →
        (<[ "metadata" := VNull ]> (<[ "tokenURI" := VStr "" ]> cert_bare)) !! k
        = (<[ "tokenURI" := VStr "" ]> cert_bare) !! k).
Proof.
  split.
  - apply (C9_empty_locator_no_fetch world_metadata cert_bare initial_state).
    vm_compute. reflexivity.
  - apply (C9_empty_locator_no_fetch world_metadata
             (<[ "tokenURI" := VStr "" ]> cert_bare) initial_state).
    vm_compute. reflexivity.
Defined.

(** C9, counterexample to the claim as stated: the record [{ tokenId: 2 }]
    has no locator, yet what the callback returns for it carries a field the
    record did not have. *)
Lemma C9_record_gains_metadata_field :
  ∃ enriched,
    augment world_metadata (VObj cert_bare) initial_state
      = (Ok (VObj enriched), initial_state) ∧
    cert_bare !! "metadata" = None ∧
    enriched !! "metadata" = Some VNull ∧
    enriched ≠ cert_bare.
Proof.
  eexists. split; [vm_compute; reflexivity|].
  split; [vm_compute; reflexivity|].
  split; [vm_compute; reflexivity|].
  intros Heq. apply (f_equal (lookup "metadata")) in Heq.
  vm_compute in Heq. discriminate.
Qed.

(** C1 (as amended). When the metadata document of a record was fetched, the
    merged record holds, under every name: the document's field of that name
    if it has one; otherwise the whole document under [metadata]; otherwise
    the record's own field.  So a raw field keeps its value exactly when the
    document has no field of the same name and the field is not [metadata];
    on a clash the document's value wins. *)
Theorem C1_metadata_fields_take_precedence
    w (cert : gmap string value) uri url r doc st :
  cert !! "tokenURI" = Some (VStr uri) → truthy (VStr uri) = true →
  resolveIPFS (VStr uri) = Ok url →
  network w url = Responded r → ok r = true → body r = Some doc →
  ∃ enriched,
    augment w (VObj cert) st = (Ok (VObj enriched), logged (Fetch url) st) ∧
    (∀ k, enriched !! k =
          match own_props doc !! k with
          | Some v => Some v
          | None => if decide (k = "metadata") then Some doc else cert !! k
          end) ∧
    (∀ k, k ≠ "metadata" → own_props doc !! k = None →
          enriched !! k = cert !! k) ∧
    (∀ k v, own_props doc !! k = Some v → enriched !! k = Some v).
Proof.
  intros Hc Ht Hu Hn Hok Hb.
  assert (Hk : ∀ k, (own_props doc ∪ <[ "metadata" := doc ]> cert) !! k =
          match own_props doc !! k with
          | Some v => Some v
          | None => if decide (k = "metadata") then Some doc else cert !! k
          end).
  { intros k. rewrite lookup_union.
    destruct (own_props doc !! k) as [v|]; cbn.
    - by destruct (<[ "metadata" := doc ]> cert !! k).
    - rewrite lookup_insert. destruct (decide ("metadata" = k)) as [<-|Hne].
      + by rewrite decide_True.
      + rewrite decide_False by congruence. by destruct (cert !! k). }
  eexists. split.
  - apply augment_run. rewrite Hc. cbn [default].
    rewrite (fetchIPFSMetadata_fetched _ _ url) by done.
    rewrite Hn, Hok, Hb. reflexivity.
  - split; [exact Hk|]. split.
    + intros k Hne Hnone. rewrite Hk, Hnone. by rewrite decide_False.
    + intros k v Hsome. by rewrite Hk, Hsome.
Qed.

(** The theorem on a record named ["raw"] whose document is named
    ["meta"]. *)
Lemma C1_metadata_fields_take_precedence_witness :
  ∃ enriched,
    augment world_metadata (VObj cert_named) initial_state
      = (Ok (VObj enriched), logged (Fetch "https://ipfs.io/ipfs/X") initial_state) ∧
    (∀ k, enriched !! k =
          match own_props (VObj (<[ "name" := VStr "meta" ]>
                                 {[ "tokenId" := VNum 7 ]})) !! k with
          | Some v => Some v
          | None =>
              if decide (k = "metadata")
              then Some (VObj (<[ "name" := VStr "meta" ]> {[ "tokenId" := VNum 7 ]}))
              else cert_named !! k
          end) ∧
    (∀ k, k ≠ "metadata" →
          own_props (VObj (<[ "name" := VStr "meta" ]>
                           {[ "tokenId" := VNum 7 ]})) !! k = None →
          enriched !! k = cert_named !! k) ∧
    (∀ k v, own_props (VObj (<[ "name" := VStr "meta" ]>
                             {[ "tokenId" := VNum 7 ]})) !! k = Some v →
            enriched !! k = Some v).
Proof.
  apply (C1_metadata_fields_take_precedence world_metadata cert_named
           "ipfs://X" "https://ipfs.io/ipfs/X"
           {| status := 200; statusText := "";
              body := Some (VObj (<[ "name" := VStr "meta" ]>
                                  {[ "tokenId" := VNum 7 ]})) |}
           (VObj (<[ "name" := VStr "meta" ]> {[ "tokenId" := VNum 7 ]}))
           initial_state);
    vm_compute; reflexivity.
Defined.

(** C1, counterexample to the claim as stated: the record's [name] is
    ["raw"], the fetched document's [name] is ["meta"], and the merged
    record's [name] is ["meta"]. *)
Lemma C1_raw_field_overwritten :
  ∃ enriched st',
    augment world_metadata (VObj cert_named) initial_state
      = (Ok (VObj enriched), st') ∧
    cert_named !! "name" = Some (VStr "raw") ∧
    enriched !! "name" = Some (VStr "meta") ∧
    enriched !! "name" ≠ cert_named !! "name".
Proof.
  eexists _, _. split; [vm_compute; reflexivity|].
  split; [vm_compute; reflexivity|].
  split; [vm_compute; reflexivity|].
  vm_compute. discriminate.
Qed.

(** C5 (as amended). Whatever the metadata fetch of a record resolved to, the
    merged record's [tokenId] is the fetched document's [tokenId] when the
    document has such a field, and the record's own [tokenId] otherwise; in
    particular it is the record's own whenever no document was fetched. *)
Theorem C5_tokenId_kept_unless_metadata_has_one
    w (cert : gmap string value) st md st' :
  fetchIPFSMetadata w (default VUndef (cert !! "tokenURI")) st = (Ok md, st') →
  ∃ enriched,
    augment w (VObj cert) st = (Ok (VObj enriched), st') ∧
    (own_props md !! "tokenId" = None →
     enriched !! "tokenId" = cert !! "tokenId") ∧
    (∀ v, own_props md !! "tokenId" = Some v →
          enriched !! "tokenId" = Some v) ∧
    (md = VNull → enriched !! "tokenId" = cert !! "tokenId").
Proof.
  intros Hmd. eexists. split; [by apply augment_run|].
  assert (Hnone : own_props md !! "tokenId" = None →
            (own_props md ∪ <[ "metadata" := md ]> cert) !! "tokenId"
            = cert !! "tokenId").
  { intros Hn. rewrite lookup_union_r by done. by rewrite lookup_insert_ne. }
  split; [exact Hnone|]. split.
  - intros v Hv. by rewrite (lookup_union_Some_l _ _ _ _ Hv).
  - intros ->. apply Hnone. reflexivity.
Qed.

(** The theorem on a record whose metadata fetch failed. *)
Lemma C5_tokenId_kept_unless_metadata_has_one_witness :
  ∃ enriched,
    augment world_offline (VObj cert_X) initial_state
      = (Ok (VObj enriched), logged (Fetch "https://ipfs.io/ipfs/X") initial_state) ∧
    (own_props VNull !! "tokenId" = None →
     enriched !! "tokenId" = cert_X !! "tokenId") ∧
    (∀ v, own_props VNull !! "tokenId" = Some v →
          enriched !! "tokenId" = Some v) ∧
    (VNull = VNull → enriched !! "tokenId" = cert_X !! "tokenId").
Proof.
  apply (C5_tokenId_kept_unless_metadata_has_one world_offline cert_X
           initial_state VNull
           (logged (Fetch "https://ipfs.io/ipfs/X") initial_state)).
  vm_compute. reflexivity.
Defined.

(** C5, counterexample to the claim as stated: the record's [tokenId] is 1,
    the fetched document carries [tokenId: 7], and the merged record's
    [tokenId] is 7. *)
Lemma C5_tokenId_overwritten :
  ∃ enriched st',
    augment world_metadata (VObj cert_X) initial_state
      = (Ok (VObj enriched), st') ∧
    cert_X !! "tokenId" = Some (VNum 1) ∧
    enriched !! "tokenId" = Some (VNum 7).
Proof.
  eexists _, _. split; [vm_compute; reflexivity|].
  split; vm_compute; reflexivity.
Qed.

(** C3, the code at a failing input. The backend lists
    [{ tokenId: 1, tokenURI: "ipfs://X" }] for wallet [0xabc] and the
    metadata fetch for it fails with a network error. Neither the callback
    nor [getCertificates] throws, and [tokenId] and [tokenURI] are as they
    were; but the record returned is not the original one: it has the
    additional field [metadata: null]. The [catch] block that would return
    the original record is not the path taken. *)
Theorem C3_failed_fetch_adds_metadata_field :
  fetch_failed (network world_gateway_down "https://ipfs.io/ipfs/X") = true ∧
  augment world_gateway_down (VObj cert_X) initial_state
    = (Ok (VObj (<[ "metadata" := VNull ]> cert_X)),
       logged (Fetch "https://ipfs.io/ipfs/X") initial_state) ∧
  augment_try world_gateway_down (VObj cert_X) initial_state
    = augment world_gateway_down (VObj cert_X) initial_state ∧
  (∃ st',
     getCertificates world_gateway_down "0xabc" initial_state
       = (Ok (VObj (<[ "success" := VBool true ]>
                    {[ "certificates" :=
                         VArr [VObj (<[ "metadata" := VNull ]> cert_X)] ]})),
          st')) ∧
  cert_X !! "metadata" = None ∧
  <[ "metadata" := VNull ]> cert_X ≠ cert_X.
Proof.
  split; [reflexivity|].
  split; [vm_compute; reflexivity|].
  split; [vm_compute; reflexivity|].
  split; [eexists; vm_compute; reflexivity|].
  split; [vm_compute; reflexivity|].
  intros Heq. apply (f_equal (lookup "metadata")) in Heq.
  vm_compute in Heq. discriminate.
Qed.

(** ** Backend discovery *)

(** A candidate that does not answer with 2xx JSON is passed over: the loop
    goes on with the remaining candidates, one more probe in the log.  If it
    did not answer 2xx at all, nothing else in the state has changed. *)
Lemma findWorkingBackend_loop_skip w baseUrl rest st :
  answers_json (network w (baseUrl +:+ "/health")) = false →
  ∃ st1,
    findWorkingBackend_loop w (baseUrl :: rest) st
      = findWorkingBackend_loop w rest st1 ∧
    log st1 = log st ++ [probe baseUrl] ∧
    (answers_2xx (network w (baseUrl +:+ "/health")) = false →
     st1 = logged (probe baseUrl) st).
Proof.
  intros Hj. cbn [findWorkingBackend_loop].
  rewrite bind_run. unfold settle at 1. rewrite bind_run. unfold fetch.
  destruct (network w (baseUrl +:+ "/health")) as [msg|r] eqn:Hn.
  - eexists. split; [reflexivity|]. split; reflexivity.
  - cbn [answers_json answers_2xx] in *.
    destruct (ok r) eqn:Hok.
    + cbn [andb] in Hj. apply bool_decide_eq_false in Hj.
      assert (Hb : body r = None) by (destruct (body r); [exfalso; apply Hj|]; done).
      rewrite !bind_run. unfold modify, json. rewrite Hb. cbn.
      eexists. split; [reflexivity|]. split; [reflexivity|]. discriminate.
    + eexists. split; [reflexivity|]. split; reflexivity.
Qed.

(** A candidate that answers with 2xx JSON ends the loop. *)
Lemma findWorkingBackend_loop_hit w baseUrl rest r payload st :
  network w (baseUrl +:+ "/health") = Responded r → ok r = true →
  body r = Some payload →
  findWorkingBackend_loop w (baseUrl :: rest) st =
  (Ok payload,
   with_HEALTH_URL (baseUrl +:+ "/health")
     (with_API_BASE_URL (baseUrl +:+ "/api") (logged (probe baseUrl) st))).
Proof.
  intros Hn Hok Hb. cbn [findWorkingBackend_loop].
  rewrite bind_run. unfold settle at 1. rewrite bind_run. unfold fetch.
  rewrite Hn, Hok, !bind_run. unfold modify, json. rewrite Hb. reflexivity.
Qed.

(** C8. If no candidate answers its probe with a 2xx response, the loop
    throws the no-backend error after probing every candidate once, in
    order, and leaves everything but the log as it was. *)
Theorem C8_no_backend_after_probing_all w (candidates : list string) st :
  Forall (λ baseUrl, answers_2xx (network w (baseUrl +:+ "/health")) = false)
         candidates →
  findWorkingBackend_loop w candidates st =
  (Throw (Error "No backend server found. Please start your backend server."),
   with_log (log st ++ (probe <$> candidates)) st).
Proof.
  intros Hall. revert st. induction Hall as [|baseUrl rest Hb _ IH]; intros st.
  - cbn. rewrite (right_id_L [] (++)). by destruct st.
  - destruct (findWorkingBackend_loop_skip w baseUrl rest st) as (st1 & -> & _ & Hst1).
    { destruct (network w (baseUrl +:+ "/health")) as [|r]; [done|].
      cbn in *. by rewrite Hb. }
    rewrite (Hst1 Hb), IH. cbn. by rewrite <- (assoc_L (++)).
Qed.

(** The theorem on the page's own candidates, with nothing answering. *)
Lemma C8_no_backend_after_probing_all_witness :
  findWorkingBackend world_offline initial_state =
  (Throw (Error "No backend server found. Please start your backend server."),
   with_log (log initial_state ++ (probe <$> POSSIBLE_BACKEND_URLS)) initial_state).
Proof.
  apply (C8_no_backend_after_probing_all world_offline POSSIBLE_BACKEND_URLS
           initial_state).
  unfold POSSIBLE_BACKEND_URLS. repeat (constructor; [reflexivity|]). constructor.
Defined.

(** C7 (as amended). If a candidate answers its probe with a 2xx response
    whose body is JSON, and no candidate before it does, the loop returns
    that body, [API_BASE_URL] and [HEALTH_URL] are those of that candidate,
    every candidate up to it was probed once, in order, and none after it
    was probed. *)
Theorem C7_first_json_answer_wins
    w (before : list string) baseUrl (after : list string) r payload st :
  Forall (λ u, answers_json (network w (u +:+ "/health")) = false) before →
  network w (baseUrl +:+ "/health") = Responded r → ok r = true →
  body r = Some payload →
  ∃ st',
    findWorkingBackend_loop w (before ++ baseUrl :: after) st = (Ok payload, st') ∧
    API_BASE_URL st' = baseUrl +:+ "/api" ∧
    HEALTH_URL st' = baseUrl +:+ "/health" ∧
    log st' = log st ++ (probe <$> (before ++ [baseUrl])).
Proof.
  intros Hall Hn Hok Hb. revert st.
  induction Hall as [|u rest Hu _ IH]; intros st.
  - eexists. split; [by apply (findWorkingBackend_loop_hit _ _ _ r)|]. done.
  - destruct (findWorkingBackend_loop_skip w u (rest ++ baseUrl :: after) st Hu)
      as (st1 & Hrun & Hlog & _).
    destruct (IH st1) as (st' & Hrun' & Hapi & Hhealth & Hlog').
    exists st'. cbn [app]. rewrite Hrun. split; [done|].
    split; [done|]. split; [done|].
    rewrite Hlog', Hlog. cbn. by rewrite <- (assoc_L (++)).
Qed.

(** The theorem on the page's own candidates: the first is down, the second
    answers, the third is never contacted. *)
Lemma C7_first_json_answer_wins_witness :
  ∃ st',
    findWorkingBackend_loop world_second_backend
      (["http://localhost:5000"] ++ "http://localhost:3001" :: ["http://127.0.0.1:5000"])
      initial_state
      = (Ok (VObj {[ "status" := VStr "OK" ]}), st') ∧
    API_BASE_URL st' = "http://localhost:3001" +:+ "/api" ∧
    HEALTH_URL st' = "http://localhost:3001" +:+ "/health" ∧
    log st' = log initial_state
              ++ (probe <$> (["http://localhost:5000"] ++ ["http://localhost:3001"])).
Proof.
  apply (C7_first_json_answer_wins world_second_backend
           ["http://localhost:5000"] "http://localhost:3001"
           ["http://127.0.0.1:5000"]
           {| status := 200; statusText := "";
              body := Some (VObj {[ "status" := VStr "OK" ]}) |}
           (VObj {[ "status" := VStr "OK" ]}) initial_state).
  - constructor; [reflexivity|constructor].
  - reflexivity.
  - reflexivity.
  - reflexivity.
Defined.

(** C7, counterexample to the claim as stated: the first candidate answers
    its probe with a 2xx response, yet the second candidate is probed after
    it and it is the second candidate's base URL that ends up in
    [API_BASE_URL] and [HEALTH_URL]. *)
Lemma C7_probes_past_first_2xx :
  answers_2xx (network world_foreign_server "http://localhost:5000/health") = true ∧
  ∃ payload st',
    findWorkingBackend world_foreign_server initial_state = (Ok payload, st') ∧
    API_BASE_URL st' = "http://localhost:3001/api" ∧
    HEALTH_URL st' = "http://localhost:3001/health" ∧
    log st' = [ Fetch "http://localhost:5000/health";
                Fetch "http://localhost:3001/health" ].
Proof.
  split; [reflexivity|].
  eexists _, _. split; [vm_compute; reflexivity|].
  split; [reflexivity|]. split; reflexivity.
Qed.

(** ** Network switch *)

(** C4 (as amended). With the wallet on another chain and the switch request
    refused: if the error's code is 4902, the chain definition is registered
    with [wallet_addEthereumChain] and that request is the last one made (the
    switch is not requested a second time; a failure to register
    propagates); for any other code the switch error itself propagates and
    nothing is registered. *)
Theorem C4_unrecognized_chain_is_registered
    w p chainId switchError code st :
  ethereum w = Some p →
  eth_request p "eth_chainId" VUndef = Ok chainId →
  strict_eq chainId (VStr apothemChainId) = false →
  eth_request p "wallet_switchEthereumChain" switchParams = Throw switchError →
  get switchError "code" = Ok code →
  ensureCorrectNetwork w st =
  if strict_eq code (VNum 4902) then
    (eth_request p "wallet_addEthereumChain" (VArr [apothemChain]) ≫= (λ _, Ok tt),
     with_log (log st ++ [chainIdRequest; switchRequest; addChainRequest]) st)
  else
    (Throw switchError,
     with_log (log st ++ [chainIdRequest; switchRequest]) st).
Proof.
  intros Hw Hc Hne Hsw Hcode. unfold ensureCorrectNetwork. rewrite Hw.
  rewrite bind_run. unfold request at 1. rewrite Hc, Hne. cbn [negb].
  rewrite try_catch_run, bind_run. unfold request at 1. unfold switchParams in Hsw.
  rewrite Hsw, bind_run. unfold lift. rewrite Hcode.
  destruct (strict_eq code (VNum 4902)).
  - rewrite bind_run. unfold request.
    destruct (eth_request p "wallet_addEthereumChain" (VArr [apothemChain]));
      cbn; unfold logged; cbn; by rewrite <- !(assoc_L (++)).
  - cbn. unfold logged; cbn. by rewrite <- !(assoc_L (++)).
Qed.

(** The theorem on a wallet that refuses the switch with code 4902. *)
Lemma C4_unrecognized_chain_is_registered_witness :
  ensureCorrectNetwork world_unknown_chain initial_state =
  if strict_eq (VNum 4902) (VNum 4902) then
    (eth_request wallet_unknown_chain "wallet_addEthereumChain" (VArr [apothemChain])
       ≫= (λ _, Ok tt),
     with_log (log initial_state ++ [chainIdRequest; switchRequest; addChainRequest])
              initial_state)
  else
    (Throw (VObj (<[ "code" := VNum 4902 ]>
                  {[ "message" := VStr "Unrecognized chain ID" ]})),
     with_log (log initial_state ++ [chainIdRequest; switchRequest]) initial_state).
Proof.
  apply (C4_unrecognized_chain_is_registered world_unknown_chain
           wallet_unknown_chain (VStr "0x1")
           (VObj (<[ "code" := VNum 4902 ]>
                  {[ "message" := VStr "Unrecognized chain ID" ]}))
           (VNum 4902) initial_state).
  - reflexivity.
  - reflexivity.
  - reflexivity.
  - reflexivity.
  - vm_compute. reflexivity.
Defined.

(** C4, counterexample to the claim as stated: on a 4902 refusal the chain
    is registered, and then the function returns. The switch was requested
    once, before the registration, and not again after it. *)
Lemma C4_switch_not_retried :
  ∃ st',
    ensureCorrectNetwork world_unknown_chain initial_state = (Ok tt, st') ∧
    log st' = [chainIdRequest; switchRequest; addChainRequest] ∧
    ¬ (∃ earlier later,
         log st' = earlier ++ addChainRequest :: later ∧ switchRequest ∈ later).
Proof.
  eexists. split; [vm_compute; reflexivity|].
  split; [reflexivity|].
  intros (earlier & later & Hlog & Hin).
  unfold chainIdRequest, switchRequest, addChainRequest in *. cbn in Hlog.
  destruct earlier as [|e1 [|e2 [|e3 [|e4 earlier]]]]; cbn in Hlog;
    try discriminate.
  inversion Hlog; subst. inversion Hin.
Qed.

(** ** Balance *)

Lemma fetchDirectBalance_run fmt w address st :
  fetchDirectBalance fmt w address st =
  (Ok tt,
   match ethereum w with
   | None => st
   | Some p =>
       with_balance
         match provider_getBalance p address with
         | Ok bal => VStr (fmt bal)
         | Throw _ => VStr "Unable to load"
         end
         (logged (GetBalance address) st)
   end).
Proof.
  unfold fetchDirectBalance. rewrite try_catch_run.
  destruct (ethereum w) as [p|]; [|reflexivity].
  rewrite bind_run. unfold readBalance.
  destruct (provider_getBalance p address); reflexivity.
Qed.

Lemma getBalance_run w address st :
  getBalance w address st =
  (match network w (API_BASE_URL st +:+ "/wallet/" +:+ address +:+ "/balance") with
   | NetworkFailure message => Throw (TypeError message)
   | Responded r =>
       if ok r then
         match body r with
         | Some balanceData => Ok balanceData
         | None => Throw (SyntaxError "Unexpected token in JSON")
         end
       else Throw (Error ("Failed to fetch balance: " +:+ pretty (status r)
                          +:+ " " +:+ statusText r))
   end,
   logged (Fetch (API_BASE_URL st +:+ "/wallet/" +:+ address +:+ "/balance")) st).
Proof.
  unfold getBalance. rewrite try_catch_run, !bind_run. cbn [get_state].
  rewrite bind_run. unfold fetch.
  destruct (network w _) as [msg|r]; [reflexivity|].
  destruct (ok r); cbn [negb]; [|reflexivity].
  unfold json. destruct (body r); reflexivity.
Qed.



(** The page starts a load only behind its provider guard (see [walletEffect]).
    Were [fetchWalletData] run with no provider, [fetchDirectBalance] would
    return at its own guard: the load completes, the provider is not asked
    and the balance stays [null]. *)
Remark fetchWalletData_without_provider :
  backend_balance_failed
    (network world_offline "http://localhost:5000/api/wallet/0xabc/balance") = true ∧
  ∃ st',
    fetchWalletData formatEther_decimal world_offline "0xabc" initial_state
      = (Ok tt, st') ∧
    balance st' = VNull ∧
    log st' = [ Fetch "http://localhost:5000/api/certificates/wallet/0xabc";
                Fetch "http://localhost:5000/api/wallet/0xabc/balance" ].
Proof.
  split; [reflexivity|].
  eexists. split; [vm_compute; reflexivity|].
  split; reflexivity.
Qed.

(** ** What the fetches leave untouched *)

Lemma with_log_same st : with_log (log st) st = st.
Proof. by destruct st. Qed.

Lemma only_logs_ret {A : Type} (a : A) : only_logs (mret a).
Proof. intros st. exists (log st). cbn. by rewrite with_log_same. Qed.

Lemma only_logs_throw {A : Type} e : only_logs (@throw A e).
Proof. intros st. exists (log st). cbn. by rewrite with_log_same. Qed.

Lemma only_logs_lift {A : Type} (r : outcome A) : only_logs (lift r).
Proof. intros st. exists (log st). cbn. by rewrite with_log_same. Qed.

Lemma only_logs_get_state {A : Type} (f : state → A) : only_logs (get_state f).
Proof. intros st. exists (log st). cbn. by rewrite with_log_same. Qed.

Lemma only_logs_bind {A B : Type} (m : M A) (f : A → M B) :
  only_logs m → (∀ a, only_logs (f a)) → only_logs (m ≫= f).
Proof.
  intros Hm Hf st. rewrite bind_run. destruct (Hm st) as [l Hl].
  destruct (m st) as [[a|e] st1]; cbn in Hl; subst st1.
  - destruct (Hf a (with_log l st)) as [l' Hl']. exists l'. by rewrite Hl'.
  - by exists l.
Qed.

Lemma only_logs_settle {A : Type} (m : M A) : only_logs m → only_logs (settle m).
Proof.
  intros Hm st. destruct (Hm st) as [l Hl]. exists l. unfold settle.
  by destruct (m st).
Qed.

Lemma only_logs_try_catch {A : Type} (body : M A) (handler : value → M A) :
  only_logs body → (∀ e, only_logs (handler e)) →
  only_logs (try_catch body handler).
Proof.
  intros Hb Hh. apply only_logs_bind; [by apply only_logs_settle|].
  intros [a|e]; [apply only_logs_ret|apply Hh].
Qed.

Lemma only_logs_fetch w url : only_logs (fetch w url).
Proof.
  intros st. exists (log st ++ [Fetch url]). unfold fetch.
  by destruct (network w url).
Qed.

Lemma only_logs_request p method params : only_logs (request p method params).
Proof. intros st. by exists (log st ++ [Request method params]). Qed.

Lemma only_logs_json r : only_logs (json r).
Proof.
  unfold json. destruct (body r); [apply only_logs_ret|apply only_logs_throw].
Qed.

Lemma only_logs_run_all {A : Type} (ms : list (M A)) :
  Forall only_logs ms → only_logs (run_all ms).
Proof.
  induction 1 as [|m ms Hm _ IH]; cbn [run_all]; [apply only_logs_ret|].
  apply only_logs_bind; [by apply only_logs_settle|]. intros r.
  apply only_logs_bind; [done|]. intros rs. apply only_logs_ret.
Qed.

Lemma only_logs_Promise_all {A : Type} (ms : list (M A)) :
  Forall only_logs ms → only_logs (Promise_all ms).
Proof.
  intros Hms. apply only_logs_bind; [by apply only_logs_run_all|].
  intros rs. apply only_logs_lift.
Qed.

Create HintDb logs.
#[local] Hint Resolve only_logs_ret only_logs_throw only_logs_lift
  only_logs_get_state only_logs_fetch only_logs_request only_logs_json : logs.

(** Take a computation apart down to calls known to touch only the log. *)
Ltac only_logs_step :=
  first
    [ apply only_logs_try_catch; [|intros ?]
    | apply only_logs_bind; [|intros ?]
    | apply only_logs_settle
    | match goal with
      | |- only_logs (if ?b then _ else _) => destruct b
      | |- only_logs (match ?x with _ => _ end) => destruct x
      end
    | solve [auto with logs] ].

Lemma only_logs_fetchIPFSMetadata w tokenURI :
  only_logs (fetchIPFSMetadata w tokenURI).
Proof. unfold fetchIPFSMetadata. repeat only_logs_step. Qed.

Lemma only_logs_augment w cert : only_logs (augment w cert).
Proof.
  unfold augment, augment_try, augment_catch.
  repeat first [apply only_logs_fetchIPFSMetadata | only_logs_step].
Qed.

Lemma only_logs_getCertificates w address : only_logs (getCertificates w address).
Proof.
  unfold getCertificates.
  repeat first
    [ apply only_logs_Promise_all; apply Forall_fmap, Forall_true;
      intros ?; apply only_logs_augment
    | only_logs_step ].
Qed.

Lemma only_logs_getBalance w address : only_logs (getBalance w address).
Proof. unfold getBalance. repeat only_logs_step. Qed.

Lemma only_logs_ensureCorrectNetwork w : only_logs (ensureCorrectNetwork w).
Proof. unfold ensureCorrectNetwork. repeat only_logs_step. Qed.

(** ** Loading the dashboard *)

(** A value whose properties can be read at all can be read under any name. *)
Lemma get_readable v k a k' : get v k = Ok a → ∃ b, get v k' = Ok b.
Proof. destruct v; cbn; intros H; try discriminate; eauto. Qed.

(** [found || []] is never [null] or [undefined]. *)
Lemma get_or_else_array found k : ∃ a, get (or_else found (VArr [])) k = Ok a.
Proof.
  unfold or_else. destruct (truthy found) eqn:Ht; [|cbn; eauto].
  destruct found; cbn in *; try discriminate; eauto.
Qed.






(** When the network-switch step throws an error object, the load is
    aborted and the error's message is shown. *)
Lemma fetchWalletData_network_switch_error fmt w address st e message st1 :
  ensureCorrectNetwork w (loading_started st) = (Throw e, st1) →
  get e "message" = Ok message →
  fetchWalletData fmt w address st =
  (Ok tt,
   with_metadataLoading false
     (with_loading false
        (with_error (VStr ("Failed to load dashboard data: " +:+ to_string message))
                    st1))).
Proof.
  intros Hnet Hm. unfold fetchWalletData. rewrite try_catch_run.
  unfold fetchWalletData_try.
  do 3 (rewrite bind_run; cbn [setLoading setMetadataLoading setError modify]).
  fold (loading_started st). rewrite bind_run, Hnet.
  unfold fetchWalletData_catch. rewrite bind_run. unfold lift. rewrite Hm.
  reflexivity.
Qed.

(** ** The certificate list as a whole *)

(** Every callback over a list of records completes, each with the result
    of [augment] on its own record. *)
Lemma run_all_augment_records w (records : list (gmap string value)) st :
  ∃ merged st',
    run_all (augment w <$> (VObj <$> records)) st = (Ok (Ok <$> merged), st') ∧
    Forall2 (λ cert v, ∃ sti sti', augment w (VObj cert) sti = (Ok v, sti'))
            records merged.
Proof.
  revert st. induction records as [|cert records IH]; intros st.
  - exists [], st. split; [reflexivity|constructor].
  - destruct (fetchIPFSMetadata_resolves w (default VUndef (cert !! "tokenURI")) st)
      as (md & st1 & Hmd & _).
    pose proof (augment_run w cert st md st1 Hmd) as Ha.
    destruct (IH st1) as (merged & st' & Hrun & Hall).
    eexists (_ :: merged), st'. split.
    + cbn [fmap list_fmap run_all]. rewrite bind_run. unfold settle at 1.
      rewrite Ha, bind_run.
      change (list_fmap _ _ (augment w) (list_fmap _ _ VObj records))
        with (augment w <$> (VObj <$> records)).
      rewrite Hrun. reflexivity.
    + constructor; [eauto|done].
Qed.

Lemma all_fulfilled_Ok {A : Type} (l : list A) : all_fulfilled (Ok <$> l) = Ok l.
Proof. induction l as [|a l IH]; [done|]. cbn. by rewrite IH. Qed.

(** On a 2xx payload with a truthy [success] and a list of records,
    [getCertificates] resolves to the payload with its [certificates]
    replaced, record by record, by what [augment] returns; no failure of a
    metadata fetch reaches the list or the caller. *)
Lemma getCertificates_augments_each
    w address st r (data : gmap string value) (records : list (gmap string value)) :
  network w (API_BASE_URL st +:+ "/certificates/wallet/" +:+ address) = Responded r →
  ok r = true → body r = Some (VObj data) →
  truthy (default VUndef (data !! "success")) = true →
  data !! "certificates" = Some (VArr (VObj <$> records)) →
  ∃ merged st',
    getCertificates w address st
      = (Ok (VObj (<[ "certificates" := VArr merged ]> data)), st') ∧
    Forall2 (λ cert v, ∃ sti sti', augment w (VObj cert) sti = (Ok v, sti'))
            records merged.
Proof.
  intros Hn Hok Hb Hs Hc.
  destruct (run_all_augment_records w records
              (logged (Fetch (API_BASE_URL st +:+ "/certificates/wallet/" +:+ address)) st))
    as (merged & st' & Hrun & Hall).
  exists merged, st'. split; [|done].
  unfold getCertificates. rewrite try_catch_run, !bind_run. cbn [get_state].
  rewrite bind_run. unfold fetch. rewrite Hn, Hok. cbn [negb].
  rewrite bind_run. unfold json. rewrite Hb. cbn [mret M_ret].
  rewrite bind_run. cbn [lift get]. rewrite Hs, Hc.
  rewrite bind_run. cbn [lift default from_option id truthy].
  rewrite bind_run. unfold Promise_all. rewrite bind_run, Hrun.
  unfold lift. rewrite all_fulfilled_Ok. unfold spread. cbn [own_props].
  by rewrite (right_id_L ∅ (∪)).
Qed.

(** ** Further properties: content locators *)

Lemma substring_whole (s : string) : String.substring 0 (String.length s) s = s.
Proof. induction s as [|c s IH]; [done|]. cbn. by rewrite IH. Qed.

Lemma replace_first_prefix pat rep s :
  String.prefix pat s = true →
  replace_first pat rep s =
  rep +:+ String.substring (String.length pat)
                           (String.length s - String.length pat) s.
Proof. intros Hp. destruct s; cbn [replace_first]; by rewrite Hp. Qed.

(** A locator under the [ipfs://] scheme is rewritten by replacing that
    prefix, and nothing else, with the gateway. *)
Lemma resolveIPFS_scheme (rest : string) :
  resolveIPFS (VStr ("ipfs://" +:+ rest)) = Ok ("https://ipfs.io/ipfs/" +:+ rest).
Proof.
  unfold resolveIPFS.
  assert (Hp : String.prefix "ipfs://" ("ipfs://" +:+ rest) = true)
    by (cbn; by destruct rest).
  cbn [truthy]. change (String.eqb ("ipfs://" +:+ rest) "") with false.
  cbn [negb]. rewrite Hp, (replace_first_prefix _ _ _ Hp).
  f_equal. f_equal. simpl. rewrite Nat.sub_0_r. apply substring_whole.
Qed.

(** X1. [resolveIPFS] maps [ipfs://<rest>] to [https://ipfs.io/ipfs/<rest>]
    for every [<rest>]: only the scheme prefix is replaced, also when
    [<rest>] itself contains [ipfs://]. *)
Theorem X1_resolveIPFS_rewrites_scheme (rest : string) :
  resolveIPFS (VStr ("ipfs://" +:+ rest)) = Ok ("https://ipfs.io/ipfs/" +:+ rest).
Proof. apply resolveIPFS_scheme. Qed.

(** X2. On strings [resolveIPFS] never throws and is idempotent: what it
    returns is never under the [ipfs://] scheme, and resolving it again
    returns it unchanged. *)
Theorem X2_resolveIPFS_idempotent (s : string) :
  ∃ url, resolveIPFS (VStr s) = Ok url ∧
         String.prefix "ipfs://" url = false ∧
         resolveIPFS (VStr url) = Ok url.
Proof.
  unfold resolveIPFS at 1. cbn [truthy].
  destruct (String.eqb s "") eqn:He; cbn [negb].
  - exists "". done.
  - destruct (String.prefix "ipfs://" s) eqn:Hp.
    + rewrite (replace_first_prefix _ _ _ Hp).
      eexists. split; [reflexivity|]. split; reflexivity.
    + exists s. split; [done|]. split; [done|].
      unfold resolveIPFS. cbn [truthy]. by rewrite He, Hp.
Qed.

(** X3. [resolveIPFS] throws exactly on the truthy values that are not
    strings (numbers other than 0, [true], arrays, objects), and it returns
    the empty string exactly on the falsy values: a string that is not
    empty never resolves to the empty string. *)
Theorem X3_resolveIPFS_throws_on_non_strings (uri : value) :
  ((∃ e, resolveIPFS uri = Throw e) ↔
   truthy uri = true ∧ ∀ s, uri ≠ VStr s) ∧
  (truthy uri = false ↔ resolveIPFS uri = Ok "").
Proof.
  split.
  - split.
    + intros [e He]. unfold resolveIPFS in He.
      destruct (truthy uri) eqn:Ht; cbn [negb] in He; [|discriminate].
      split; [done|]. intros s ->.
      by destruct (String.prefix "ipfs://" s).
    + intros [Ht Hs]. unfold resolveIPFS. rewrite Ht. cbn [negb].
      destruct uri; try (eexists; reflexivity). by destruct (Hs s).
  - split.
    + intros Ht. unfold resolveIPFS. by rewrite Ht.
    + intros Hr. destruct (truthy uri) eqn:Ht; [|done].
      unfold resolveIPFS in Hr. rewrite Ht in Hr. cbn [negb] in Hr.
      destruct uri as [| |b|n|s|l|m]; try discriminate.
      destruct (String.prefix "ipfs://" s) eqn:Hp.
      * rewrite (replace_first_prefix _ _ _ Hp) in Hr. discriminate.
      * injection Hr as ->. discriminate.
Qed.

(** X4. For a locator [ipfs://<rest>] the metadata fetch makes exactly one
    request, to [https://ipfs.io/ipfs/<rest>], and resolves to the JSON body
    of a 2xx reply and to [null] in every other case. *)
Theorem X4_fetchIPFSMetadata_goes_through_gateway w (rest : string) st :
  fetchIPFSMetadata w (VStr ("ipfs://" +:+ rest)) st =
  (Ok match network w ("https://ipfs.io/ipfs/" +:+ rest) with
      | NetworkFailure _ => VNull
      | Responded r => if ok r then default VNull (body r) else VNull
      end,
   logged (Fetch ("https://ipfs.io/ipfs/" +:+ rest)) st).
Proof.
  apply fetchIPFSMetadata_fetched; [reflexivity|apply resolveIPFS_scheme].
Qed.

(** ** Further properties: backend discovery *)

(** One pass of the loop over a candidate that is passed over, with the
    state it leaves: only the log has grown, or the candidate answered 2xx
    and the two URLs now name it. *)
Lemma findWorkingBackend_loop_skip_state w baseUrl rest st :
  answers_json (network w (baseUrl +:+ "/health")) = false →
  ∃ st1,
    findWorkingBackend_loop w (baseUrl :: rest) st
      = findWorkingBackend_loop w rest st1 ∧
    ((answers_2xx (network w (baseUrl +:+ "/health")) = false ∧
      st1 = logged (probe baseUrl) st) ∨
     (answers_2xx (network w (baseUrl +:+ "/health")) = true ∧
      st1 = with_HEALTH_URL (baseUrl +:+ "/health")
              (with_API_BASE_URL (baseUrl +:+ "/api") (logged (probe baseUrl) st)))).
Proof.
  intros Hj. cbn [findWorkingBackend_loop].
  rewrite bind_run. unfold settle at 1. rewrite bind_run. unfold fetch.
  destruct (network w (baseUrl +:+ "/health")) as [msg|r] eqn:Hn.
  - eexists. split; [reflexivity|]. left. done.
  - cbn [answers_json answers_2xx] in *.
    destruct (ok r) eqn:Hok.
    + cbn [andb] in Hj. apply bool_decide_eq_false in Hj.
      assert (Hb : body r = None) by (destruct (body r); [exfalso; apply Hj|]; done).
      rewrite !bind_run. unfold modify, json. rewrite Hb. cbn.
      eexists. split; [reflexivity|]. right. done.
    + eexists. split; [reflexivity|]. left. done.
Qed.

(** With no candidate answering 2xx, the loop ends in the no-backend error
    with nothing but the log changed. *)
Lemma findWorkingBackend_loop_all_down w (candidates : list string) st :
  Forall (λ baseUrl, answers_2xx (network w (baseUrl +:+ "/health")) = false)
         candidates →
  findWorkingBackend_loop w candidates st =
  (Throw noBackendError, with_log (log st ++ (probe <$> candidates)) st).
Proof.
  intros Hall. revert st. induction Hall as [|baseUrl rest Hb _ IH]; intros st.
  - cbn. rewrite (right_id_L [] (++)). by destruct st.
  - destruct (findWorkingBackend_loop_skip w baseUrl rest st) as (st1 & -> & _ & Hst1).
    { destruct (network w (baseUrl +:+ "/health")) as [|r]; [done|].
      cbn in *. by rewrite Hb. }
    rewrite (Hst1 Hb), IH. cbn. by rewrite <- (assoc_L (++)).
Qed.

(** Every run of the loop, described by how it ended. *)
Lemma findWorkingBackend_loop_outcome w (candidates : list string) st :
  ∃ r st', findWorkingBackend_loop w candidates st = (r, st') ∧
    same_display st st' ∧
    match r with
    | Throw e =>
        e = noBackendError ∧
        Forall (λ u, answers_json (network w (u +:+ "/health")) = false) candidates ∧
        log st' = log st ++ (probe <$> candidates)
    | Ok payload =>
        ∃ before baseUrl after r0,
          candidates = before ++ baseUrl :: after ∧
          Forall (λ u, answers_json (network w (u +:+ "/health")) = false) before ∧
          network w (baseUrl +:+ "/health") = Responded r0 ∧
          ok r0 = true ∧ body r0 = Some payload ∧
          API_BASE_URL st' = baseUrl +:+ "/api" ∧
          HEALTH_URL st' = baseUrl +:+ "/health" ∧
          log st' = log st ++ (probe <$> (before ++ [baseUrl]))
    end.
Proof.
  revert st. induction candidates as [|u rest IH]; intros st.
  - eexists _, _. split; [reflexivity|]. split; [done|].
    split; [done|]. split; [constructor|]. cbn. by rewrite (right_id_L [] (++)).
  - destruct (answers_json (network w (u +:+ "/health"))) eqn:Hj.
    + destruct (network w (u +:+ "/health")) as [msg|r0] eqn:Hn; [done|].
      cbn in Hj. apply andb_true_iff in Hj as [Hok Hb].
      apply bool_decide_eq_true in Hb.
      destruct (body r0) as [payload|] eqn:Hbody; [|done].
      eexists _, _. split; [by apply (findWorkingBackend_loop_hit _ _ _ r0)|].
      split; [done|].
      exists [], u, rest, r0. done.
    + destruct (findWorkingBackend_loop_skip_state w u rest st Hj)
        as (st1 & Hrun & Hst1).
      destruct (IH st1) as (r & st' & Hrest & Hdisp & Hr).
      exists r, st'. rewrite Hrun. split; [done|].
      assert (Hlog1 : log st1 = log st ++ [probe u])
        by (destruct Hst1 as [[_ ->]|[_ ->]]; reflexivity).
      assert (Hdisp1 : same_display st st1)
        by (destruct Hst1 as [[_ ->]|[_ ->]]; done).
      split.
      { unfold same_display in *. destruct Hdisp as (-> & -> & -> & -> & -> & ->).
        exact Hdisp1. }
      destruct r as [payload|e].
      * destruct Hr as (before & b & after & r0 & -> & Hbefore & Hn & Hok & Hb
                        & Hapi & Hhealth & Hlog).
        exists (u :: before), b, after, r0.
        split; [done|]. split; [by constructor|].
        do 5 (split; [done|]).
        rewrite Hlog, Hlog1. cbn. by rewrite <- (assoc_L (++)).
      * destruct Hr as (-> & Hall & Hlog).
        split; [done|]. split; [by constructor|].
        rewrite Hlog, Hlog1. cbn. by rewrite <- (assoc_L (++)).
Qed.

(** X5. Whatever the network does, [findWorkingBackend] either returns a
    health payload or throws the no-backend error, and nothing else; it
    probes the candidates in order, each at most once, stopping at some
    point of the list, and writes none of the React state. *)
Theorem X5_findWorkingBackend_outcomes w (candidates : list string) st :
  ∃ r st' n,
    findWorkingBackend_loop w candidates st = (r, st') ∧
    (n ≤ length candidates)%nat ∧
    log st' = log st ++ (probe <$> take n candidates) ∧
    same_display st st' ∧
    match r with
    | Throw e => e = noBackendError ∧ n = length candidates
    | Ok _ => True
    end.
Proof.
  destruct (findWorkingBackend_loop_outcome w candidates st)
    as (r & st' & Hrun & Hdisp & Hr).
  destruct r as [payload|e].
  - destruct Hr as (before & b & after & r0 & -> & _ & _ & _ & _ & _ & _ & Hlog).
    exists (Ok payload), st', (S (length before)).
    split; [done|]. split; [rewrite length_app; cbn; lia|].
    split; [|done]. rewrite Hlog. do 2 f_equal.
    replace (before ++ b :: after) with ((before ++ [b]) ++ after)
      by (by rewrite <- (assoc_L (++))).
    rewrite take_app_length'; [done|]. rewrite length_app. cbn. lia.
  - destruct Hr as (-> & _ & Hlog).
    exists (Throw noBackendError), st', (length candidates).
    split; [done|]. split; [done|]. rewrite firstn_all. done.
Qed.

(** X6. [findWorkingBackend] throws if and only if no candidate answers its
    probe with a 2xx response whose body is JSON; a candidate that answers
    2xx with anything else counts as unavailable. *)
Theorem X6_findWorkingBackend_fails_iff w (candidates : list string) st :
  (∃ e st', findWorkingBackend_loop w candidates st = (Throw e, st')) ↔
  Forall (λ u, answers_json (network w (u +:+ "/health")) = false) candidates.
Proof.
  destruct (findWorkingBackend_loop_outcome w candidates st)
    as (r & st' & Hrun & _ & Hr).
  split.
  - intros (e & st'' & He). rewrite Hrun in He. injection He as Hr' _. subst r.
    by destruct Hr as (_ & Hall & _).
  - intros Hall. destruct r as [payload|e]; [|eauto].
    destruct Hr as (before & b & after & r0 & -> & _ & Hn & Hok & Hb & _).
    apply Forall_app in Hall as [_ Hall]. apply Forall_cons in Hall as [Hj _].
    rewrite Hn in Hj. cbn in Hj. rewrite Hok in Hj. cbn in Hj.
    apply bool_decide_eq_false in Hj. exfalso. apply Hj. by rewrite Hb.
Qed.

(** X7. [API_BASE_URL] and [HEALTH_URL] are only ever written together: if
    they name the same backend before [findWorkingBackend] runs, they name
    the same backend after it, however it ends. *)
Theorem X7_findWorkingBackend_keeps_urls_together w (candidates : list string) st :
  same_backend st →
  same_backend (snd (findWorkingBackend_loop w candidates st)).
Proof.
  revert st. induction candidates as [|u rest IH]; intros st Hsame.
  - exact Hsame.
  - destruct (answers_json (network w (u +:+ "/health"))) eqn:Hj.
    + destruct (network w (u +:+ "/health")) as [msg|r0] eqn:Hn; [done|].
      cbn in Hj. apply andb_true_iff in Hj as [Hok Hb].
      apply bool_decide_eq_true in Hb.
      destruct (body r0) as [payload|] eqn:Hbody; [|done].
      rewrite (findWorkingBackend_loop_hit _ _ _ r0 payload) by done.
      by exists u.
    + destruct (findWorkingBackend_loop_skip_state w u rest st Hj)
        as (st1 & -> & Hst1).
      apply IH. destruct Hst1 as [[_ ->]|[_ ->]]; [exact Hsame|by exists u].
Qed.

(** The theorem from the page's initial state, in a world where a foreign
    server answers the first probe. *)
Lemma X7_findWorkingBackend_keeps_urls_together_witness :
  same_backend (snd (findWorkingBackend_loop world_foreign_server
                       POSSIBLE_BACKEND_URLS initial_state)).
Proof.
  apply (X7_findWorkingBackend_keeps_urls_together world_foreign_server
           POSSIBLE_BACKEND_URLS initial_state).
  exists "http://localhost:5000". split; reflexivity.
Defined.

(** X8. A failed discovery can still move the client: if no candidate
    answers with 2xx JSON but some answer 2xx, then [findWorkingBackend]
    throws the no-backend error and leaves [API_BASE_URL] and [HEALTH_URL]
    pointing at the last candidate that answered 2xx. *)
Theorem X8_failed_discovery_keeps_last_2xx
    w (before : list string) baseUrl (after : list string) st :
  Forall (λ u, answers_json (network w (u +:+ "/health")) = false) before →
  answers_json (network w (baseUrl +:+ "/health")) = false →
  answers_2xx (network w (baseUrl +:+ "/health")) = true →
  Forall (λ u, answers_2xx (network w (u +:+ "/health")) = false) after →
  ∃ st',
    findWorkingBackend_loop w (before ++ baseUrl :: after) st
      = (Throw noBackendError, st') ∧
    API_BASE_URL st' = baseUrl +:+ "/api" ∧
    HEALTH_URL st' = baseUrl +:+ "/health".
Proof.
  intros Hbefore Hj H2 Hafter. revert st.
  induction Hbefore as [|u rest Hu _ IH]; intros st.
  - cbn [app].
    destruct (findWorkingBackend_loop_skip_state w baseUrl after st Hj)
      as (st1 & -> & [[Hno _]|[_ ->]]); [congruence|].
    rewrite (findWorkingBackend_loop_all_down _ _ _ Hafter).
    eexists. split; [reflexivity|]. done.
  - cbn [app].
    destruct (findWorkingBackend_loop_skip_state w u (rest ++ baseUrl :: after) st Hu)
      as (st1 & -> & _).
    apply IH.
Qed.

(** The theorem on the page's own candidates, with a stray server on port
    3001 that answers 200 without JSON: discovery fails and the client is
    left pointing at port 3001. *)
Lemma X8_failed_discovery_keeps_last_2xx_witness :
  ∃ st',
    findWorkingBackend_loop world_stray_server
      (["http://localhost:5000"] ++ "http://localhost:3001" :: ["http://127.0.0.1:5000"])
      initial_state
      = (Throw noBackendError, st') ∧
    API_BASE_URL st' = "http://localhost:3001" +:+ "/api" ∧
    HEALTH_URL st' = "http://localhost:3001" +:+ "/health".
Proof.
  apply (X8_failed_discovery_keeps_last_2xx world_stray_server
           ["http://localhost:5000"] "http://localhost:3001"
           ["http://127.0.0.1:5000"] initial_state).
  - constructor; [reflexivity|constructor].
  - reflexivity.
  - reflexivity.
  - constructor; [reflexivity|constructor].
Defined.

(** ** Further properties: the API client *)

Lemma only_logs_verifyCertificate w tokenId : only_logs (verifyCertificate w tokenId).
Proof. unfold verifyCertificate. repeat only_logs_step. Qed.

Lemma only_logs_checkHealth w : only_logs (checkHealth w).
Proof. unfold checkHealth. repeat only_logs_step. Qed.

(** X9. None of [getCertificates], [getBalance], [verifyCertificate],
    [checkHealth], [fetchIPFSMetadata] and [ensureCorrectNetwork] writes
    [API_BASE_URL], [HEALTH_URL] or any React state: whatever they are given
    and however they end, they leave the state as it was except for the
    calls they made. *)
Theorem X9_client_functions_only_make_calls w address tokenId tokenURI :
  only_logs (getCertificates w address) ∧
  only_logs (getBalance w address) ∧
  only_logs (verifyCertificate w tokenId) ∧
  only_logs (checkHealth w) ∧
  only_logs (fetchIPFSMetadata w tokenURI) ∧
  only_logs (ensureCorrectNetwork w).
Proof.
  split; [apply only_logs_getCertificates|].
  split; [apply only_logs_getBalance|].
  split; [apply only_logs_verifyCertificate|].
  split; [apply only_logs_checkHealth|].
  split; [apply only_logs_fetchIPFSMetadata|apply only_logs_ensureCorrectNetwork].
Qed.

Lemma verifyCertificate_run w tokenId st :
  verifyCertificate w tokenId st =
  (match network w (API_BASE_URL st +:+ "/verify/" +:+ to_string tokenId) with
   | NetworkFailure message => Throw (TypeError message)
   | Responded r =>
       if ok r then
         match body r with
         | Some payload => Ok payload
         | None => Throw (SyntaxError "Unexpected token in JSON")
         end
       else Throw (Error ("Failed to verify certificate: " +:+ statusText r))
   end,
   logged (Fetch (API_BASE_URL st +:+ "/verify/" +:+ to_string tokenId)) st).
Proof.
  unfold verifyCertificate. rewrite bind_run. cbn [get_state].
  rewrite bind_run. unfold fetch.
  destruct (network w _) as [msg|r]; [reflexivity|].
  destruct (ok r); cbn [negb]; [|reflexivity].
  unfold json. destruct (body r); reflexivity.
Qed.

(** X10. After a successful discovery every later request goes to the
    backend that was selected, a candidate whose probe was answered with 2xx
    JSON: [checkHealth] makes its one request to that candidate's [/health],
    and [getBalance] and [verifyCertificate] (for a token id that is a
    string or a safe integer) each make their one request under that
    candidate's [/api].  What those later requests are answered is not
    constrained. *)
Theorem X10_requests_follow_discovery
    w (candidates : list string) st payload st1 address tokenId :
  findWorkingBackend_loop w candidates st = (Ok payload, st1) →
  plain_token tokenId = true →
  ∃ baseUrl,
    baseUrl ∈ candidates ∧
    answers_json (network w (baseUrl +:+ "/health")) = true ∧
    snd (checkHealth w st1) = logged (Fetch (baseUrl +:+ "/health")) st1 ∧
    snd (getBalance w address st1) =
      logged (Fetch ((baseUrl +:+ "/api") +:+ "/wallet/" +:+ address +:+ "/balance")) st1 ∧
    snd (verifyCertificate w tokenId st1) =
      logged (Fetch ((baseUrl +:+ "/api") +:+ "/verify/" +:+ to_string tokenId)) st1.
Proof.
  intros Hrun _.
  destruct (findWorkingBackend_loop_outcome w candidates st)
    as (r & st' & Hrun' & _ & Hr).
  rewrite Hrun in Hrun'. injection Hrun' as <- <-.
  destruct Hr as (before & b & after & r0 & -> & _ & Hn & Hok & Hb & Hapi & Hhealth & _).
  exists b. split; [apply elem_of_app; right; by left|].
  split; [rewrite Hn; cbn; rewrite Hok, Hb; done|].
  split.
  - unfold checkHealth. rewrite bind_run. cbn [get_state]. rewrite bind_run.
    unfold fetch. rewrite Hhealth.
    destruct (network w (b +:+ "/health")) as [msg|r1]; [reflexivity|].
    destruct (ok r1); cbn [negb]; [|reflexivity].
    unfold json. by destruct (body r1).
  - rewrite getBalance_run, verifyCertificate_run. cbn [snd]. by rewrite Hapi.
Qed.

(** The theorem on the page's own candidates, the second of which answers. *)
Lemma X10_requests_follow_discovery_witness :
  ∃ baseUrl,
    baseUrl ∈ POSSIBLE_BACKEND_URLS ∧
    answers_json (network world_second_backend (baseUrl +:+ "/health")) = true ∧
    snd (checkHealth world_second_backend
           (snd (findWorkingBackend world_second_backend initial_state))) =
      logged (Fetch (baseUrl +:+ "/health"))
        (snd (findWorkingBackend world_second_backend initial_state)) ∧
    snd (getBalance world_second_backend "0xabc"
           (snd (findWorkingBackend world_second_backend initial_state))) =
      logged (Fetch ((baseUrl +:+ "/api") +:+ "/wallet/" +:+ "0xabc" +:+ "/balance"))
        (snd (findWorkingBackend world_second_backend initial_state)) ∧
    snd (verifyCertificate world_second_backend (VNum 7)
           (snd (findWorkingBackend world_second_backend initial_state))) =
      logged (Fetch ((baseUrl +:+ "/api") +:+ "/verify/" +:+ to_string (VNum 7)))
        (snd (findWorkingBackend world_second_backend initial_state)).
Proof.
  apply (X10_requests_follow_discovery world_second_backend
           POSSIBLE_BACKEND_URLS initial_state
           (VObj {[ "status" := VStr "OK" ]})
           (snd (findWorkingBackend world_second_backend initial_state))
           "0xabc" (VNum 7)).
  - vm_compute. reflexivity.
  - reflexivity.
Defined.

Lemma fetchIPFSMetadata_non_string w tokenURI st :
  (∀ s, tokenURI ≠ VStr s) → fetchIPFSMetadata w tokenURI st = (Ok VNull, st).
Proof.
  intros Hs. destruct (truthy tokenURI) eqn:Ht.
  - assert (He : ∃ e, resolveIPFS tokenURI = Throw e).
    { unfold resolveIPFS. rewrite Ht. cbn [negb].
      destruct tokenURI as [| | | |s'| |]; try (eexists; reflexivity).
      by destruct (Hs s'). }
    destruct He as [e He]. by apply (fetchIPFSMetadata_unresolvable _ _ e).
  - by apply fetchIPFSMetadata_falsy.
Qed.

(** The callback on a record, as a function of the record and the world. *)
Lemma augment_record w (cert : gmap string value) st :
  augment w (VObj cert) st =
  (Ok (enriched w cert), with_log (log st ++ metadata_calls cert) st).
Proof.
  assert (Hquiet :
    fetchIPFSMetadata w (default VUndef (cert !! "tokenURI")) st = (Ok VNull, st) →
    metadata_of w cert = VNull → metadata_calls cert = [] →
    augment w (VObj cert) st =
    (Ok (enriched w cert), with_log (log st ++ metadata_calls cert) st)).
  { intros Hf Hm Hc. rewrite (augment_run w cert st VNull st Hf).
    unfold enriched. by rewrite Hm, Hc, (right_id_L [] (++)), with_log_same. }
  destruct (cert !! "tokenURI") as [[| | | |s| |]|] eqn:Ht;
    try (apply Hquiet;
         [ apply fetchIPFSMetadata_non_string; intros s'; cbn; congruence
         | unfold metadata_of; by rewrite Ht
         | unfold metadata_calls; by rewrite Ht ]).
  cbn [default from_option id] in Hquiet.
  destruct (String.eqb s "") eqn:He.
  - apply Hquiet.
    + apply fetchIPFSMetadata_falsy. cbn. by rewrite He.
    + unfold metadata_of. by rewrite Ht, He.
    + unfold metadata_calls. by rewrite Ht, He.
  - destruct (resolveIPFS (VStr s)) as [url|e] eqn:Hu.
    + rewrite (augment_run w cert st
                 match network w url with
                 | NetworkFailure _ => VNull
                 | Responded r => if ok r then default VNull (body r) else VNull
                 end (logged (Fetch url) st)).
      * unfold enriched, metadata_of, metadata_calls. by rewrite Ht, He, Hu.
      * rewrite Ht. apply fetchIPFSMetadata_fetched; [cbn; by rewrite He|done].
    + apply Hquiet.
      * apply (fetchIPFSMetadata_unresolvable _ _ e); [cbn; by rewrite He|done].
      * unfold metadata_of. by rewrite Ht, He, Hu.
      * unfold metadata_calls. by rewrite Ht, He, Hu.
Qed.

Lemma run_all_augment_records_run w (records : list (gmap string value)) st :
  run_all (augment w <$> (VObj <$> records)) st =
  (Ok (Ok <$> (enriched w <$> records)),
   with_log (log st ++ concat (metadata_calls <$> records)) st).
Proof.
  revert st. induction records as [|cert records IH]; intros st.
  - cbn. by rewrite (right_id_L [] (++)), with_log_same.
  - cbn [fmap list_fmap run_all]. rewrite bind_run. unfold settle at 1.
    rewrite augment_record, bind_run.
    change (list_fmap _ _ (augment w) (list_fmap _ _ VObj records))
      with (augment w <$> (VObj <$> records)).
    rewrite IH. cbn. by rewrite <- (assoc_L (++)).
Qed.

(** [getCertificates] on a 2xx payload with a truthy [success] and a list of
    records. *)
Lemma getCertificates_records_run
    w address st r (payload : gmap string value)
    (records : list (gmap string value)) :
  network w (API_BASE_URL st +:+ "/certificates/wallet/" +:+ address) = Responded r →
  ok r = true → body r = Some (VObj payload) →
  truthy (default VUndef (payload !! "success")) = true →
  payload !! "certificates" = Some (VArr (VObj <$> records)) →
  getCertificates w address st =
  (Ok (VObj (<[ "certificates" := VArr (enriched w <$> records) ]> payload)),
   with_log
     (log st
      ++ Fetch (API_BASE_URL st +:+ "/certificates/wallet/" +:+ address)
         :: concat (metadata_calls <$> records))
     st).
Proof.
  intros Hn Hok Hb Hs Hc.
  unfold getCertificates. rewrite try_catch_run, !bind_run. cbn [get_state].
  rewrite bind_run. unfold fetch. rewrite Hn, Hok. cbn [negb].
  rewrite bind_run. unfold json. rewrite Hb. cbn [mret M_ret].
  rewrite bind_run. cbn [lift get]. rewrite Hs, Hc.
  rewrite bind_run. cbn [lift default from_option id truthy].
  rewrite bind_run. unfold Promise_all. rewrite bind_run, run_all_augment_records_run.
  unfold lift. rewrite all_fulfilled_Ok. unfold spread. cbn [own_props].
  rewrite (right_id_L ∅ (∪)). cbn. by rewrite <- (assoc_L (++)).
Qed.

(** X11. On a 2xx payload with a truthy [success] and a list of records,
    [getCertificates] resolves to the payload with every other field as it
    was and [certificates] replaced by the list of merged records, one per
    record and in the same order. It makes the certificate request and then,
    in list order, one metadata request for each record whose [tokenURI] is
    a non-empty string, and no other call: nothing is retried, and records
    without a usable locator cost no request. *)
Theorem X11_getCertificates_on_records
    w address st r (payload : gmap string value)
    (records : list (gmap string value)) :
  network w (API_BASE_URL st +:+ "/certificates/wallet/" +:+ address) = Responded r →
  ok r = true → body r = Some (VObj payload) →
  truthy (default VUndef (payload !! "success")) = true →
  payload !! "certificates" = Some (VArr (VObj <$> records)) →
  getCertificates w address st =
  (Ok (VObj (<[ "certificates" := VArr (enriched w <$> records) ]> payload)),
   with_log
     (log st
      ++ Fetch (API_BASE_URL st +:+ "/certificates/wallet/" +:+ address)
         :: concat (metadata_calls <$> records))
     st).
Proof. apply getCertificates_records_run. Qed.

(** The theorem on the backend that lists one record whose gateway is
    down. *)
Lemma X11_getCertificates_on_records_witness :
  getCertificates world_gateway_down "0xabc" initial_state =
  (Ok (VObj (<[ "certificates" := VArr (enriched world_gateway_down <$> [cert_X]) ]>
               (<[ "success" := VBool true ]>
                  {[ "certificates" := VArr [VObj cert_X] ]}))),
   with_log
     (log initial_state
      ++ Fetch (API_BASE_URL initial_state +:+ "/certificates/wallet/" +:+ "0xabc")
         :: concat (metadata_calls <$> [cert_X]))
     initial_state).
Proof.
  apply (X11_getCertificates_on_records world_gateway_down "0xabc" initial_state
           {| status := 200; statusText := "";
              body := Some (VObj (<[ "success" := VBool true ]>
                                    {[ "certificates" := VArr [VObj cert_X] ]})) |}
           (<[ "success" := VBool true ]> {[ "certificates" := VArr [VObj cert_X] ]})
           [cert_X]).
  - reflexivity.
  - reflexivity.
  - reflexivity.
  - vm_compute. reflexivity.
  - vm_compute. reflexivity.
Defined.

(** X12. Unless the reply is a 2xx JSON payload with a truthy [success] and
    an array under [certificates], [getCertificates] makes the certificate
    request and no other call: no metadata is fetched for a failed request,
    a non-2xx status, a body that is not JSON, or a payload that reports
    failure or lists nothing. A payload with a falsy [success], or a truthy
    [success] and a falsy [certificates], is returned as it is. *)
Theorem X12_getCertificates_single_call w address st :
  lists_certificates
    (network w (API_BASE_URL st +:+ "/certificates/wallet/" +:+ address)) = false →
  snd (getCertificates w address st) =
    logged (Fetch (API_BASE_URL st +:+ "/certificates/wallet/" +:+ address)) st ∧
  ∀ r payload success,
    network w (API_BASE_URL st +:+ "/certificates/wallet/" +:+ address) = Responded r →
    ok r = true → body r = Some payload → get payload "success" = Ok success →
    (truthy success = false ∨
     ∃ found, get payload "certificates" = Ok found ∧ truthy found = false) →
    fst (getCertificates w address st) = Ok payload.
Proof.
  intros Hl.
  assert (Hrun : getCertificates w address st =
    (match network w (API_BASE_URL st +:+ "/certificates/wallet/" +:+ address) with
     | NetworkFailure message => Throw (TypeError message)
     | Responded r =>
         if ok r then
           match body r with
           | None => Throw (SyntaxError "Unexpected token in JSON")
           | Some payload =>
               match get payload "success" with
               | Throw e => Throw e
               | Ok success =>
                   if truthy success then
                     match get payload "certificates" with
                     | Throw e => Throw e
                     | Ok found =>
                         if truthy found
                         then Throw (TypeError "data.certificates.map is not a function")
                         else Ok payload
                     end
                   else Ok payload
               end
           end
         else Throw (Error ("Failed to fetch certificates: "
                            +:+ pretty (status r) +:+ " " +:+ statusText r))
     end,
     logged (Fetch (API_BASE_URL st +:+ "/certificates/wallet/" +:+ address)) st)).
  { unfold getCertificates. rewrite try_catch_run, !bind_run. cbn [get_state].
    rewrite bind_run. unfold fetch.
    destruct (network w _) as [msg|r]; [reflexivity|].
    cbn [lists_certificates] in Hl.
    destruct (ok r); cbn [negb andb] in *; [|reflexivity].
    rewrite bind_run. unfold json.
    destruct (body r) as [payload|]; [|reflexivity]. cbn [mret M_ret].
    rewrite bind_run. unfold lift at 1.
    destruct (get payload "success") as [success|e]; [|reflexivity].
    rewrite bind_run.
    destruct (truthy success) eqn:Ht.
    - unfold lift at 1.
      destruct (get payload "certificates") as [found|e]; [|reflexivity].
      destruct (truthy found) eqn:Hf.
      + destruct found; try reflexivity. discriminate.
      + reflexivity.
    - cbn [mret M_ret]. rewrite Ht. reflexivity. }
  rewrite Hrun. split; [reflexivity|].
  intros r payload success Hn Hok Hb Hs Hcase. cbn [fst].
  rewrite Hn, Hok, Hb, Hs.
  destruct Hcase as [->|(found & -> & Hf)]; [done|].
  destruct (truthy success); [by rewrite Hf|done].
Qed.

(** The theorem on the backend that answers
    [{ success: false, error: "boom" }]. *)
Lemma X12_getCertificates_single_call_witness :
  snd (getCertificates world_backend_refuses "0xabc" initial_state) =
    logged (Fetch (API_BASE_URL initial_state +:+ "/certificates/wallet/" +:+ "0xabc"))
      initial_state ∧
  ∀ r payload success,
    network world_backend_refuses
      (API_BASE_URL initial_state +:+ "/certificates/wallet/" +:+ "0xabc") = Responded r →
    ok r = true → body r = Some payload → get payload "success" = Ok success →
    (truthy success = false ∨
     ∃ found, get payload "certificates" = Ok found ∧ truthy found = false) →
    fst (getCertificates world_backend_refuses "0xabc" initial_state) = Ok payload.
Proof.
  apply (X12_getCertificates_single_call world_backend_refuses "0xabc" initial_state).
  vm_compute. reflexivity.
Defined.

(** ** Further properties: network switch *)

Lemma strict_eq_num v n : strict_eq v (VNum n) = true → v = VNum n.
Proof. destruct v; cbn; try discriminate. by intros ->%Z.eqb_eq. Qed.

(** Every run of [ensureCorrectNetwork], by the requests it made. *)
Lemma ensureCorrectNetwork_requests w st :
  ∃ r l,
    ensureCorrectNetwork w st = (r, with_log (log st ++ l) st) ∧
    (l = [] ∧ ethereum w = None ∧ r = Ok tt ∨
     l = [chainIdRequest] ∨
     l = [chainIdRequest; switchRequest] ∨
     l = [chainIdRequest; switchRequest; addChainRequest] ∧
     ∃ p e, ethereum w = Some p ∧
            eth_request p "wallet_switchEthereumChain" switchParams = Throw e ∧
            get e "code" = Ok (VNum 4902)).
Proof.
  unfold ensureCorrectNetwork.
  destruct (ethereum w) as [p|] eqn:Hw.
  2: { exists (Ok tt), []. split; [|by left].
       cbn. by rewrite (right_id_L [] (++)), with_log_same. }
  rewrite bind_run. unfold request at 1.
  destruct (eth_request p "eth_chainId" VUndef) as [chainId|e].
  2: { exists (Throw e), [chainIdRequest]. split; [reflexivity|]. right. by left. }
  destruct (strict_eq chainId (VStr apothemChainId)); cbn [negb].
  { exists (Ok tt), [chainIdRequest]. split; [reflexivity|]. right. by left. }
  rewrite try_catch_run, bind_run. unfold request at 1.
  fold switchParams.
  destruct (eth_request p "wallet_switchEthereumChain" switchParams)
    as [done_|switchError] eqn:Hsw.
  { exists (Ok tt), [chainIdRequest; switchRequest]. split.
    - cbn. unfold logged. cbn. by rewrite <- !(assoc_L (++)).
    - right. right. by left. }
  rewrite bind_run. unfold lift.
  destruct (get switchError "code") as [code|e] eqn:Hcode.
  2: { exists (Throw e), [chainIdRequest; switchRequest]. split.
       - cbn. unfold logged. cbn. by rewrite <- !(assoc_L (++)).
       - right. right. by left. }
  destruct (strict_eq code (VNum 4902)) eqn:H4902.
  - apply strict_eq_num in H4902. subst code.
    rewrite bind_run. unfold request.
    exists (eth_request p "wallet_addEthereumChain" (VArr [apothemChain]) ≫= λ _, Ok tt),
           [chainIdRequest; switchRequest; addChainRequest].
    split.
    + destruct (eth_request p "wallet_addEthereumChain" (VArr [apothemChain]));
        cbn; unfold logged; cbn; by rewrite <- !(assoc_L (++)).
    + right. right. right. split; [done|]. by exists p, switchError.
  - exists (Throw switchError), [chainIdRequest; switchRequest]. split.
    + cbn. unfold logged. cbn. by rewrite <- !(assoc_L (++)).
    + right. right. by left.
Qed.

(** X13. [ensureCorrectNetwork] talks to the wallet only: it makes at most
    three requests, always in the order chain id, switch, register, never
    repeats one, fetches nothing and reads no balance. Without a wallet
    nothing is requested at all; with the wallet already on the Apothem
    chain only the chain id is requested; and the chain is registered only
    after a switch that was refused with code 4902. *)
Theorem X13_ensureCorrectNetwork_requests w st :
  ∃ r l,
    ensureCorrectNetwork w st = (r, with_log (log st ++ l) st) ∧
    l `prefix_of` [chainIdRequest; switchRequest; addChainRequest] ∧
    (ethereum w = None → l = [] ∧ r = Ok tt) ∧
    (∀ p, ethereum w = Some p →
          eth_request p "eth_chainId" VUndef = Ok (VStr apothemChainId) →
          l = [chainIdRequest] ∧ r = Ok tt) ∧
    (addChainRequest ∈ l →
     ∃ p e, ethereum w = Some p ∧
            eth_request p "wallet_switchEthereumChain" switchParams = Throw e ∧
            get e "code" = Ok (VNum 4902)).
Proof.
  destruct (ensureCorrectNetwork_requests w st) as (r & l & Hrun & Hl).
  exists r, l. split; [done|].
  assert (Hnone : ethereum w = None → l = [] ∧ r = Ok tt).
  { intros Hw. unfold ensureCorrectNetwork in Hrun. rewrite Hw in Hrun.
    injection Hrun as <- Hst. split; [|done].
    apply (f_equal log) in Hst. cbn in Hst.
    rewrite <- (right_id_L [] (++) (log st)) in Hst at 1.
    by apply (inj (app (log st))) in Hst. }
  assert (Hchain : ∀ p, ethereum w = Some p →
            eth_request p "eth_chainId" VUndef = Ok (VStr apothemChainId) →
            l = [chainIdRequest] ∧ r = Ok tt).
  { intros p Hw Hc. unfold ensureCorrectNetwork in Hrun.
    rewrite Hw, bind_run in Hrun. unfold request in Hrun. rewrite Hc in Hrun.
    cbn in Hrun. injection Hrun as <- Hst. split; [|done].
    by apply (inj (app (log st))) in Hst. }
  destruct Hl as [(-> & _ & ->)|[->|[->|(-> & Hadd)]]].
  - split; [by eexists|]. split; [done|]. split; [done|].
    by intros ?%elem_of_nil.
  - split; [by exists [switchRequest; addChainRequest]|].
    split; [done|]. split; [done|].
    intros Hin. apply list_elem_of_singleton in Hin. discriminate.
  - split; [by exists [addChainRequest]|].
    split; [done|]. split; [done|].
    intros Hin. apply elem_of_cons in Hin as [Hin|Hin]; [discriminate|].
    apply list_elem_of_singleton in Hin. discriminate.
  - split; [by exists []|]. split; [done|]. split; [done|]. done.
Qed.

(** ** Further properties: loading the dashboard *)

(** The [try] block of [fetchWalletData], by the results of its steps. *)
Lemma fetchWalletData_try_run fmt w address st :
  fetchWalletData_try fmt w address st =
  match ensureCorrectNetwork w (loading_started st) with
  | (Throw e, st1) => (Throw e, st1)
  | (Ok _, st1) =>
      let (certificatesResponse, st2) := getCertificates w address st1 in
      let (balanceResponse, st3) := getBalance w address st2 in
      match handleCertificates certificatesResponse st3 with
      | (Throw e, st4) => (Throw e, st4)
      | (Ok _, st4) =>
          match handleBalance fmt w address balanceResponse st4 with
          | (Throw e, st5) => (Throw e, st5)
          | (Ok _, st5) =>
              (Ok tt, with_metadataLoading false (with_loading false st5))
          end
      end
  end.
Proof.
  unfold fetchWalletData_try.
  do 3 (rewrite bind_run; cbn [setLoading setMetadataLoading setError modify]).
  fold (loading_started st). rewrite bind_run.
  destruct (ensureCorrectNetwork w (loading_started st)) as [[[]|e] st1];
    [|reflexivity].
  rewrite bind_run. unfold settle at 1.
  destruct (getCertificates w address st1) as [rc st2].
  rewrite bind_run. unfold settle at 1.
  destruct (getBalance w address st2) as [rb st3].
  rewrite bind_run.
  destruct (handleCertificates rc st3) as [[[]|e] st4]; [|reflexivity].
  rewrite bind_run.
  destruct (handleBalance fmt w address rb st4) as [[[]|e] st5]; reflexivity.
Qed.

(** The [catch] block on an error whose message can be read. *)
Lemma fetchWalletData_catch_run e message st :
  get e "message" = Ok message →
  fetchWalletData_catch e st =
  (Ok tt,
   with_metadataLoading false
     (with_loading false
        (with_error (VStr ("Failed to load dashboard data: " +:+ to_string message))
                    st))).
Proof.
  intros Hm. unfold fetchWalletData_catch. rewrite bind_run. unfold lift.
  rewrite Hm. reflexivity.
Qed.

(** What a property read throws has a message. *)
Lemma get_throw_readable v k e :
  get v k = Throw e → ∃ message, get e "message" = Ok message.
Proof.
  destruct v; cbn; intros H; try discriminate;
    injection H as <-; eexists; reflexivity.
Qed.

Lemma handleCertificates_throw_readable r st e st' :
  handleCertificates r st = (Throw e, st') →
  st' = st ∧ ∃ message, get e "message" = Ok message.
Proof.
  destruct r as [certsData|reason]; cbn [handleCertificates]; [|discriminate].
  rewrite bind_run. unfold lift at 1.
  destruct (get certsData "success") as [success|e0] eqn:Hs.
  2: { intros [= <- <-]. split; [done|]. by eapply get_throw_readable. }
  destruct (get_readable _ _ _ "certificates" Hs) as [found Hf].
  destruct (get_readable _ _ _ "count" Hs) as [count Hc].
  destruct (get_readable _ _ _ "error" Hs) as [message Hm].
  destruct (truthy success).
  - rewrite bind_run. unfold lift at 1. rewrite Hf, bind_run.
    unfold setCertificates, modify at 1. rewrite bind_run. unfold lift at 1.
    rewrite Hc, bind_run.
    destruct (truthy count); [discriminate|].
    destruct (get_or_else_array found "length") as [len Hlen].
    unfold lift. rewrite Hlen. discriminate.
  - rewrite bind_run. unfold lift at 1. rewrite Hm. unfold throw.
    intros [= <- <-]. split; [done|]. eexists. reflexivity.
Qed.







(** X16. When the backend lists records, the certificates shown are the
    merged records, one per record listed, and the count shown is the
    payload's own [count] whenever that is truthy, whether or not it agrees
    with the list; only when [count] is missing or 0 is it the number of
    records. *)
Theorem X16_count_shown
    w address st r (payload : gmap string value)
    (records : list (gmap string value)) st' :
  network w (API_BASE_URL st +:+ "/certificates/wallet/" +:+ address) = Responded r →
  ok r = true → body r = Some (VObj payload) →
  truthy (default VUndef (payload !! "success")) = true →
  payload !! "certificates" = Some (VArr (VObj <$> records)) →
  handleCertificates (fst (getCertificates w address st)) st' =
  (Ok tt,
   with_certificateCount
     (if truthy (default VUndef (payload !! "count"))
      then default VUndef (payload !! "count")
      else VNum (Z.of_nat (length records)))
     (with_certificates (VArr (enriched w <$> records)) st')).
Proof.
  intros Hn Hok Hb Hs Hc.
  rewrite (getCertificates_records_run w address st r payload records) by done.
  cbn [fst handleCertificates]. rewrite bind_run. cbn [lift get].
  rewrite (lookup_insert_ne _ "certificates" "success") by done. rewrite Hs.
  rewrite bind_run. cbn [lift get]. rewrite lookup_insert_eq.
  cbn [default from_option id]. rewrite bind_run.
  unfold setCertificates, modify at 1. rewrite bind_run. cbn [lift get].
  rewrite (lookup_insert_ne _ "certificates" "count") by done.
  rewrite bind_run. unfold or_else. cbn [truthy].
  destruct (truthy (default VUndef (payload !! "count"))); cbn;
    by rewrite ?length_fmap.
Qed.

(** The theorem on a backend that lists one record and claims a count
    of 5. *)
Lemma X16_count_shown_witness :
  handleCertificates
    (fst (getCertificates
            {| network := serving
                 [ ("http://localhost:5000/api/certificates/wallet/0xabc",
                    replied 200
                      (Some (VObj (<[ "success" := VBool true ]>
                                  (<[ "count" := VNum 5 ]>
                                   {[ "certificates" := VArr [VObj cert_bare] ]}))))) ];
               ethereum := None |}
            "0xabc" initial_state))
    initial_state
  = (Ok tt,
     with_certificateCount (VNum 5)
       (with_certificates
          (VArr [VObj (<[ "metadata" := VNull ]> cert_bare)]) initial_state)).
Proof.
  pose proof (X16_count_shown
           {| network := serving
                [ ("http://localhost:5000/api/certificates/wallet/0xabc",
                   replied 200
                     (Some (VObj (<[ "success" := VBool true ]>
                                 (<[ "count" := VNum 5 ]>
                                  {[ "certificates" := VArr [VObj cert_bare] ]}))))) ];
              ethereum := None |}
           "0xabc" initial_state
           {| status := 200; statusText := "";
              body := Some (VObj (<[ "success" := VBool true ]>
                                 (<[ "count" := VNum 5 ]>
                                  {[ "certificates" := VArr [VObj cert_bare] ]}))) |}
           (<[ "success" := VBool true ]>
              (<[ "count" := VNum 5 ]> {[ "certificates" := VArr [VObj cert_bare] ]}))
           [cert_bare] initial_state
           eq_refl eq_refl eq_refl) as H.
  rewrite H; [vm_compute; reflexivity|vm_compute; reflexivity|vm_compute; reflexivity].
Defined.



(** X18. A balance payload that announces success without carrying a
    balance object aborts the load: reading [balance.formatted] throws, no
    further call is made (the wallet is not asked as a fallback), and an
    error with the page's prefix is shown although the certificates have
    already been updated; the balance stays as it was.  The rest of the
    error text is the engine's message for the failed read. *)
Theorem X18_success_without_balance_aborts
    fmt w address st st1 certificatesResponse st2 payload st3 st4 success bal :
  ensureCorrectNetwork w (loading_started st) = (Ok tt, st1) →
  getCertificates w address st1 = (certificatesResponse, st2) →
  getBalance w address st2 = (Ok payload, st3) →
  handleCertificates certificatesResponse st3 = (Ok tt, st4) →
  get payload "success" = Ok success → truthy success = true →
  get payload "balance" = Ok bal → (bal = VUndef ∨ bal = VNull) →
  ∃ reason,
    fetchWalletData fmt w address st =
    (Ok tt,
     with_metadataLoading false
       (with_loading false
          (with_error (VStr ("Failed to load dashboard data: " +:+ reason)) st4))).
Proof.
  intros Hnet Hcert Hbal Hhc Hs Ht Hb Hnull.
  unfold fetchWalletData.
  rewrite try_catch_run, fetchWalletData_try_run, Hnet, Hcert, Hbal, Hhc.
  cbn [handleBalance]. rewrite bind_run. unfold lift at 1. rewrite Hs, Ht.
  rewrite bind_run. unfold lift at 1. rewrite Hb.
  rewrite bind_run. unfold lift at 1.
  destruct (get bal "formatted") as [formatted|e] eqn:Hf.
  { destruct Hnull as [-> | ->]; discriminate. }
  destruct (get_throw_readable _ _ _ Hf) as [message Hm].
  exists (to_string message). by rewrite (fetchWalletData_catch_run _ message).
Qed.

(** The theorem on a refresh where the certificate request fails and the
    balance payload is [{ success: true }]: the old certificates are
    cleared, the old balance stays, an error is shown, and the wallet,
    although installed, is asked for its chain only. *)
Lemma X18_success_without_balance_aborts_witness :
  ∃ reason,
    fetchWalletData formatEther_decimal world_balance_missing "0xabc" state_loaded =
    (Ok tt,
     with_metadataLoading false
       (with_loading false
          (with_error
             (VStr ("Failed to load dashboard data: " +:+ reason))
             (with_certificateCount (VNum 0)
                (with_certificates (VArr [])
                   (with_log
                      [ chainIdRequest;
                        Fetch "http://localhost:5000/api/certificates/wallet/0xabc";
                        Fetch "http://localhost:5000/api/wallet/0xabc/balance" ]
                      (loading_started state_loaded))))))).
Proof.
  apply (X18_success_without_balance_aborts formatEther_decimal
           world_balance_missing "0xabc" state_loaded
           (with_log [chainIdRequest] (loading_started state_loaded))
           (Throw (TypeError "Failed to fetch"))
           (with_log [ chainIdRequest;
                       Fetch "http://localhost:5000/api/certificates/wallet/0xabc" ]
                     (loading_started state_loaded))
           (VObj {[ "success" := VBool true ]})
           (with_log [ chainIdRequest;
                       Fetch "http://localhost:5000/api/certificates/wallet/0xabc";
                       Fetch "http://localhost:5000/api/wallet/0xabc/balance" ]
                     (loading_started state_loaded))
           _ (VBool true) VUndef).
  - vm_compute. reflexivity.
  - vm_compute. reflexivity.
  - vm_compute. reflexivity.
  - reflexivity.
  - vm_compute. reflexivity.
  - reflexivity.
  - vm_compute. reflexivity.
  - by left.
Defined.

(** ** Further properties: reading a certificate *)

Lemma get_optional_total v k : ∃ a, get_optional v k = Ok a.
Proof. destruct v; cbn; eauto. Qed.



Lemma or_lazy_completes a rest :
  (∃ v, rest = Ok v) → ∃ v, or_lazy a rest = Ok v.
Proof. intros (v & ->). unfold or_lazy. destruct (truthy a); eauto. Qed.


(** A field read through the shared pattern from a merged record whose
    document carries a truthy value for it. *)
Lemma own_or_metadata_merged (doc cert : gmap string value) k v rest :
  doc !! k = Some v → truthy v = true →
  own_or_metadata (VObj (own_props (VObj doc) ∪ <[ "metadata" := VObj doc ]> cert)) k rest
  = Ok v.
Proof.
  intros Hk Hv. unfold own_or_metadata. cbn [get own_props mbind outcome_bind].
  rewrite (lookup_union_Some_l _ _ _ _ Hk). cbn [default from_option id].
  unfold or_lazy. by rewrite Hv.
Qed.

(** X20. After the merge the display follows the metadata document: when
    the document fetched for a record carries a truthy [image], [name],
    [description] or [attributes], the corresponding reader returns the
    document's value for the merged record, also when the raw record has a
    field of that name. *)
Theorem X20_display_follows_metadata
    w (cert : gmap string value) uri url r (doc : gmap string value) st :
  cert !! "tokenURI" = Some (VStr uri) → truthy (VStr uri) = true →
  resolveIPFS (VStr uri) = Ok url →
  network w url = Responded r → ok r = true → body r = Some (VObj doc) →
  ∃ merged,
    augment w (VObj cert) st = (Ok merged, logged (Fetch url) st) ∧
    (∀ v, doc !! "image" = Some v → truthy v = true →
          getCertificateImage merged = Ok v) ∧
    (∀ v, doc !! "name" = Some v → truthy v = true →
          getCertificateName merged = Ok v) ∧
    (∀ v, doc !! "description" = Some v → truthy v = true →
          getCertificateDescription merged = Ok v) ∧
    (∀ v, doc !! "attributes" = Some v → truthy v = true →
          getCertificateAttributes merged = Ok v).
Proof.
  intros Hc Ht Hu Hn Hok Hb.
  eexists. split.
  - apply augment_run. rewrite Hc. cbn [default from_option id].
    rewrite (fetchIPFSMetadata_fetched _ _ url) by done.
    rewrite Hn, Hok, Hb. reflexivity.
  - repeat split; intros v Hv Htv; by apply own_or_metadata_merged.
Qed.

(** The theorem on the record named ["raw"] whose document is named
    ["meta"]: the name displayed is ["meta"]. *)
Lemma X20_display_follows_metadata_witness :
  ∃ merged,
    augment world_metadata (VObj cert_named) initial_state
      = (Ok merged, logged (Fetch "https://ipfs.io/ipfs/X") initial_state) ∧
    (∀ v, (<[ "name" := VStr "meta" ]> {[ "tokenId" := VNum 7 ]} : gmap string value)
            !! "image" = Some v → truthy v = true →
          getCertificateImage merged = Ok v) ∧
    (∀ v, (<[ "name" := VStr "meta" ]> {[ "tokenId" := VNum 7 ]} : gmap string value)
            !! "name" = Some v → truthy v = true →
          getCertificateName merged = Ok v) ∧
    (∀ v, (<[ "name" := VStr "meta" ]> {[ "tokenId" := VNum 7 ]} : gmap string value)
            !! "description" = Some v → truthy v = true →
          getCertificateDescription merged = Ok v) ∧
    (∀ v, (<[ "name" := VStr "meta" ]> {[ "tokenId" := VNum 7 ]} : gmap string value)
            !! "attributes" = Some v → truthy v = true →
          getCertificateAttributes merged = Ok v).
Proof.
  apply (X20_display_follows_metadata world_metadata cert_named
           "ipfs://X" "https://ipfs.io/ipfs/X"
           {| status := 200; statusText := "";
              body := Some (VObj (<[ "name" := VStr "meta" ]>
                                  {[ "tokenId" := VNum 7 ]})) |}
           (<[ "name" := VStr "meta" ]> {[ "tokenId" := VNum 7 ]})
           initial_state);
    vm_compute; reflexivity.
Defined.

(** On a record without a [metadata] field, writing [metadata: null] onto it
    leaves the shared pattern's result as it was. *)
Lemma own_or_metadata_null (cert : gmap string value) k rest :
  cert !! "metadata" = None → k ≠ "metadata" →
  own_or_metadata (VObj (<[ "metadata" := VNull ]> cert)) k rest =
  own_or_metadata (VObj cert) k rest.
Proof.
  intros Hm Hk. unfold own_or_metadata. cbn [get].
  rewrite (lookup_insert_ne _ "metadata" k) by congruence.
  rewrite lookup_insert_eq, Hm. reflexivity.
Qed.

(** X21. The field [metadata: null] that the merge adds when no document
    was fetched does not show: on a record that has no [metadata] field of
    its own, every reader returns for the record with [metadata: null]
    exactly what it returns for the record itself. *)
Theorem X21_null_metadata_does_not_show (cert : gmap string value) :
  cert !! "metadata" = None →
  let merged := VObj (<[ "metadata" := VNull ]> cert) in
  getCertificateImage merged = getCertificateImage (VObj cert) ∧
  getCertificateName merged = getCertificateName (VObj cert) ∧
  getCertificateDescription merged = getCertificateDescription (VObj cert) ∧
  getCertificateAttributes merged = getCertificateAttributes (VObj cert) ∧
  getEventName merged = getEventName (VObj cert) ∧
  getRecipientName merged = getRecipientName (VObj cert) ∧
  getDateIssued merged = getDateIssued (VObj cert) ∧
  getCertificateLevel merged = getCertificateLevel (VObj cert) ∧
  getSkills merged = getSkills (VObj cert).
Proof.
  intros Hm merged. subst merged.
  assert (Hattr : getCertificateAttributes (VObj (<[ "metadata" := VNull ]> cert))
                  = getCertificateAttributes (VObj cert))
    by (by apply own_or_metadata_null).
  assert (Htrait : ∀ name, trait_value (VObj (<[ "metadata" := VNull ]> cert)) name
                           = trait_value (VObj cert) name)
    by (intros name; unfold trait_value; by rewrite Hattr).
  split; [by apply own_or_metadata_null|].
  split.
  { unfold getCertificateName. rewrite own_or_metadata_null by done.
    cbn [get]. by rewrite lookup_insert_ne. }
  split; [by apply own_or_metadata_null|].
  split; [exact Hattr|].
  split; [unfold getEventName; rewrite own_or_metadata_null by done;
          by rewrite Htrait|].
  split; [unfold getRecipientName; rewrite own_or_metadata_null by done;
          by rewrite Htrait|].
  split; [unfold getDateIssued; rewrite own_or_metadata_null by done;
          by rewrite Htrait|].
  split; [unfold getCertificateLevel; by rewrite Htrait|].
  unfold getSkills. by rewrite Hattr.
Qed.

(** The theorem on the record [{ tokenId: 1, tokenURI: "ipfs://X" }]. *)
Lemma X21_null_metadata_does_not_show_witness :
  let merged := VObj (<[ "metadata" := VNull ]> cert_X) in
  getCertificateImage merged = getCertificateImage (VObj cert_X) ∧
  getCertificateName merged = getCertificateName (VObj cert_X) ∧
  getCertificateDescription merged = getCertificateDescription (VObj cert_X) ∧
  getCertificateAttributes merged = getCertificateAttributes (VObj cert_X) ∧
  getEventName merged = getEventName (VObj cert_X) ∧
  getRecipientName merged = getRecipientName (VObj cert_X) ∧
  getDateIssued merged = getDateIssued (VObj cert_X) ∧
  getCertificateLevel merged = getCertificateLevel (VObj cert_X) ∧
  getSkills merged = getSkills (VObj cert_X).
Proof.
  apply (X21_null_metadata_does_not_show cert_X). vm_compute. reflexivity.
Defined.

Lemma filter_skills_malformed (attrs : list value) :
  Exists (λ attr, well_formed_attribute attr = false) attrs →
  ∃ e, filter_skills attrs = Throw e.
Proof.
  induction 1 as [attr rest Hbad|attr rest _ IH]; cbn [filter_skills].
  - unfold is_skill, well_formed_attribute in *.
    destruct (get attr "trait_type") as [[| | | |s| |]|e]; cbn; try discriminate; eauto.
  - destruct IH as [e He]. rewrite He.
    destruct (is_skill attr) as [keep|e']; cbn; eauto.
Qed.

Lemma find_trait_readable name (attrs : list value) :
  Forall (λ attr, ∃ trait, get attr "trait_type" = Ok trait) attrs →
  ∃ found, find_trait name attrs = Ok found.
Proof.
  induction 1 as [|attr rest [trait Ht] _ IH]; cbn [find_trait]; [eauto|].
  rewrite Ht. cbn. destruct (strict_eq trait (VStr name)); eauto.
Qed.

(** X22. One attribute whose [trait_type] is not a string (missing, a
    number, ...) makes [getSkills] throw, whatever the other attributes
    are; the readers that look an attribute up by name, such as
    [getCertificateLevel], still return as long as no attribute is [null]. *)
Theorem X22_getSkills_needs_string_traits
    (cert : gmap string value) (attrs : list value) :
  getCertificateAttributes (VObj cert) = Ok (VArr attrs) →
  Forall (λ attr, ∃ trait, get attr "trait_type" = Ok trait) attrs →
  Exists (λ attr, well_formed_attribute attr = false) attrs →
  (∃ e, getSkills (VObj cert) = Throw e) ∧
  (∃ v, getCertificateLevel (VObj cert) = Ok v).
Proof.
  intros Hattrs Hread Hbad. split.
  - unfold getSkills. rewrite Hattrs. cbn [mbind outcome_bind].
    destruct (filter_skills_malformed attrs Hbad) as [e ->]. eauto.
  - unfold getCertificateLevel, trait_value. rewrite Hattrs.
    cbn [mbind outcome_bind].
    destruct (find_trait_readable "Level" attrs Hread) as [found ->].
    cbn [mbind outcome_bind].
    destruct (get_optional_total found "value") as [v ->].
    cbn [mbind outcome_bind]. apply or_lazy_completes. eauto.
Qed.

(** The theorem on a record whose third attribute has no [trait_type]. *)
Lemma X22_getSkills_needs_string_traits_witness :
  (∃ e, getSkills (VObj cert_odd_attribute) = Throw e) ∧
  (∃ v, getCertificateLevel (VObj cert_odd_attribute) = Ok v).
Proof.
  apply (X22_getSkills_needs_string_traits cert_odd_attribute
           [ attribute "Level" (VStr "Gold");
             attribute "Skill 1" (VStr "Proofs");
             VObj {[ "value" := VStr "stray" ]} ]).
  - vm_compute. reflexivity.
  - repeat (constructor; [eexists; vm_compute; reflexivity|]). constructor.
  - apply Exists_cons_tl, Exists_cons_tl, Exists_cons_hd. vm_compute. reflexivity.
Defined.

Lemma filter_skills_objects (attrs : list (gmap string value)) :
  Forall (λ attr : gmap string value, ∃ s, attr !! "trait_type" = Some (VStr s)) attrs →
  filter_skills (VObj <$> attrs) =
  Ok (VObj <$> List.filter (λ attr, names_skill (VObj attr)) attrs).
Proof.
  induction 1 as [|attr rest [s Hs] _ IH];
    cbn [filter_skills List.filter fmap list_fmap]; [done|].
  change (list_fmap _ _ VObj rest) with (VObj <$> rest). rewrite IH.
  unfold is_skill, names_skill. cbn [get]. rewrite Hs. cbn.
  by destruct (String.prefix "Skill" s).
Qed.

Lemma map_value_objects (attrs : list (gmap string value)) :
  map_value (VObj <$> attrs) =
  Ok ((λ attr : gmap string value, default VUndef (attr !! "value")) <$> attrs).
Proof.
  induction attrs as [|attr rest IH]; cbn [map_value fmap list_fmap]; [done|].
  change (list_fmap _ _ VObj rest) with (VObj <$> rest). by rewrite IH.
Qed.

(** X23. When every attribute is an object with a string [trait_type],
    [getSkills] does not throw and returns the [value] of exactly those
    attributes whose [trait_type] begins with ["Skill"], in the order of
    the attribute list ([undefined] for one that has no [value]). *)
Theorem X23_getSkills_on_well_formed_attributes
    (cert : gmap string value) (attrs : list (gmap string value)) :
  getCertificateAttributes (VObj cert) = Ok (VArr (VObj <$> attrs)) →
  Forall (λ attr : gmap string value, ∃ s, attr !! "trait_type" = Some (VStr s)) attrs →
  getSkills (VObj cert) =
  Ok (VArr ((λ attr : gmap string value, default VUndef (attr !! "value"))
              <$> List.filter (λ attr, names_skill (VObj attr)) attrs)).
Proof.
  intros Hattrs Hwf. unfold getSkills. rewrite Hattrs. cbn [mbind outcome_bind].
  rewrite (filter_skills_objects attrs Hwf). cbn [mbind outcome_bind].
  by rewrite map_value_objects.
Qed.

(** The theorem on a record with two skills around a level. *)
Lemma X23_getSkills_on_well_formed_attributes_witness :
  getSkills (VObj cert_skilled) =
  Ok (VArr ((λ attr : gmap string value, default VUndef (attr !! "value"))
              <$> List.filter (λ attr, names_skill (VObj attr))
                    [ <[ "trait_type" := VStr "Skill 1" ]> {[ "value" := VStr "Proofs" ]};
                      <[ "trait_type" := VStr "Level" ]> {[ "value" := VStr "Gold" ]};
                      <[ "trait_type" := VStr "Skill 2" ]> {[ "value" := VStr "Tactics" ]} ])).
Proof.
  apply (X23_getSkills_on_well_formed_attributes cert_skilled
           [ <[ "trait_type" := VStr "Skill 1" ]> {[ "value" := VStr "Proofs" ]};
             <[ "trait_type" := VStr "Level" ]> {[ "value" := VStr "Gold" ]};
             <[ "trait_type" := VStr "Skill 2" ]> {[ "value" := VStr "Tactics" ]} ]).
  - vm_compute. reflexivity.
  - repeat (constructor; [eexists; vm_compute; reflexivity|]). constructor.
Defined.

(** ** Further properties: the component *)

(** X24. [checkBackendHealth] never throws. It stores as backend status the
    health payload of the backend that discovery selected, and when
    discovery fails the object [{ status: "ERROR", message: ... }] with the
    no-backend message; it leaves the wallet, the MetaMask flag and the
    dashboard's data as they were. *)
Theorem X24_checkBackendHealth_reports w pg :
  ∃ pg',
    checkBackendHealth w pg = (Ok tt, pg') ∧
    backendStatus pg' =
      match fst (findWorkingBackend w (data pg)) with
      | Ok health => health
      | Throw _ => backendOffline
      end ∧
    data pg' = snd (findWorkingBackend w (data pg)) ∧
    same_display (data pg) (data pg') ∧
    wallet pg' = wallet pg ∧ metaMaskInstalled pg' = metaMaskInstalled pg ∧
    isClient pg' = isClient pg.
Proof.
  unfold checkBackendHealth, findWorkingBackend.
  destruct (findWorkingBackend_loop_outcome w POSSIBLE_BACKEND_URLS (data pg))
    as (r & st' & Hrun & Hdisp & Hr).
  rewrite Hrun. destruct r as [health|e].
  - eexists. split; [reflexivity|]. done.
  - destruct Hr as (-> & _). eexists. split; [reflexivity|]. done.
Qed.

(** X25. The wallet effect starts no load, and so makes no call and
    changes neither certificates nor balance, unless the page runs in the
    browser, a wallet provider is installed and a non-empty address is
    stored. Without a provider it only flags MetaMask as missing; with a
    provider but no stored address it shows the no-wallet error and clears
    the loading flag. *)
Theorem X25_walletEffect_needs_provider_and_address fmt w storedWallet pg :
  isClient pg = false ∨ ethereum w = None ∨ no_address storedWallet = true →
  let pg' := walletEffect fmt w storedWallet pg in
  log (data pg') = log (data pg) ∧
  certificates (data pg') = certificates (data pg) ∧
  balance (data pg') = balance (data pg) ∧
  wallet pg' = wallet pg ∧
  (isClient pg = true → ethereum w = None →
   pg' = with_metaMaskInstalled false pg) ∧
  (isClient pg = true → ethereum w ≠ None →
   metaMaskInstalled pg' = metaMaskInstalled pg ∧
   error (data pg') = VStr "No wallet connected! Please connect your wallet first." ∧
   loading (data pg') = false).
Proof.
  intros Hcase pg'. subst pg'. unfold walletEffect.
  destruct (isClient pg) eqn:Hc; cbn [negb].
  2: { do 4 (split; [done|]). split; discriminate. }
  destruct (ethereum w) as [p|] eqn:Hw.
  2: { do 4 (split; [done|]). split; [done|]. intros _ Hne. by destruct Hne. }
  destruct Hcase as [Hcase|[Hcase|Hcase]]; [discriminate|discriminate|].
  rewrite Hcase. do 4 (split; [done|]). split; [discriminate|]. done.
Qed.

(** The theorem on a page in the browser, with a wallet but no stored
    address. *)
Lemma X25_walletEffect_needs_provider_and_address_witness :
  let pg' := walletEffect formatEther_decimal world_wallet_only None page_on_client in
  log (data pg') = log (data page_on_client) ∧
  certificates (data pg') = certificates (data page_on_client) ∧
  balance (data pg') = balance (data page_on_client) ∧
  wallet pg' = wallet page_on_client ∧
  (isClient page_on_client = true → ethereum world_wallet_only = None →
   pg' = with_metaMaskInstalled false page_on_client) ∧
  (isClient page_on_client = true → ethereum world_wallet_only ≠ None →
   metaMaskInstalled pg' = metaMaskInstalled page_on_client ∧
   error (data pg') = VStr "No wallet connected! Please connect your wallet first." ∧
   loading (data pg') = false).
Proof.
  apply (X25_walletEffect_needs_provider_and_address formatEther_decimal
           world_wallet_only None page_on_client).
  right. right. reflexivity.
Defined.

(** With the backend's balance request failed, handling its result is the
    direct read from the wallet. *)
Lemma handleBalance_backend_failed fmt w address st st' :
  backend_balance_failed
    (network w (API_BASE_URL st +:+ "/wallet/" +:+ address +:+ "/balance")) = true →
  handleBalance fmt w address (fst (getBalance w address st)) st' =
  fetchDirectBalance fmt w address st'.
Proof.
  intros Hf. rewrite getBalance_run. cbn [fst].
  destruct (network w _) as [msg|r]; cbn [handleBalance]; [done|].
  cbn [backend_balance_failed] in Hf.
  destruct (ok r); cbn [negb orb] in Hf; [|done].
  destruct (body r) as [balanceData|]; [|done].
  destruct (get balanceData "success") as [success|] eqn:Hs; [|discriminate].
  cbn [handleBalance]. rewrite bind_run. unfold lift at 1. rewrite Hs.
  apply negb_true_iff in Hf. by rewrite Hf.
Qed.

(** X26. On the path the page takes when it mounts, the wallet is always
    there for the fallback: if the wallet effect starts a load, the
    backend's balance request fails, and the load runs to its end without
    showing an error, then the balance shown afterwards is the wallet's raw
    balance rendered by [formatEther], or ["Unable to load"] if the wallet's
    read failed. It is never left as it was. *)
Theorem X26_mounted_load_resolves_balance fmt w p address pg :
  isClient pg = true → ethereum w = Some p → no_address (Some address) = false →
  backend_balance_failed
    (network w (API_BASE_URL (data pg) +:+ "/wallet/" +:+ address +:+ "/balance")) = true →
  error (data (walletEffect fmt w (Some address) pg)) = VNull →
  loading (data (walletEffect fmt w (Some address) pg)) = false →
  wallet (walletEffect fmt w (Some address) pg) = Some address ∧
  balance (data (walletEffect fmt w (Some address) pg)) =
    match provider_getBalance p address with
    | Ok bal => VStr (fmt bal)
    | Throw _ => VStr "Unable to load"
    end.
Proof.
  intros Hc Hw Ha Hfail. unfold walletEffect.
  rewrite Hc, Hw, Ha. cbn [negb default from_option id data with_wallet with_data wallet].
  set (st := data pg).
  unfold fetchWalletData. rewrite try_catch_run, fetchWalletData_try_run.
  destruct (only_logs_ensureCorrectNetwork w (loading_started st)) as [l1 Hl1].
  destruct (ensureCorrectNetwork w (loading_started st)) as [[[]|e] st1] eqn:Hnet;
    cbn [snd] in Hl1.
  2: { unfold fetchWalletData_catch. rewrite bind_run. unfold lift at 1.
       destruct (get e "message") as [message|e'].
       - cbn. discriminate.
       - cbn. subst st1. cbn. discriminate. }
  destruct (only_logs_getCertificates w address st1) as [l2 Hl2].
  destruct (getCertificates w address st1) as [rc st2] eqn:Hcert. cbn [snd] in Hl2.
  destruct (only_logs_getBalance w address st2) as [l3 Hl3].
  pose proof (handleBalance_backend_failed fmt w address st2) as Hhb.
  destruct (getBalance w address st2) as [rb st3] eqn:Hbal. cbn [snd fst] in *.
  assert (Hapi : API_BASE_URL st2 = API_BASE_URL (data pg)) by (by subst).
  rewrite Hapi in Hhb.
  destruct (handleCertificates rc st3) as [[[]|e] st4] eqn:Hhc.
  2: { destruct (handleCertificates_throw_readable _ _ _ _ Hhc) as [_ [m Hm]].
       rewrite (fetchWalletData_catch_run _ _ _ Hm). cbn. discriminate. }
  rewrite (Hhb st4 Hfail), fetchDirectBalance_run, Hw. cbn. done.
Qed.

(** The theorem on a page in the browser with a stored address, the backend
    down and a wallet holding 1.5 XDC: the balance shown is ["1.5"]. *)
Lemma X26_mounted_load_resolves_balance_witness :
  wallet (walletEffect formatEther_decimal world_wallet_only (Some "0xabc")
            page_on_client) = Some "0xabc" ∧
  balance (data (walletEffect formatEther_decimal world_wallet_only (Some "0xabc")
                   page_on_client)) =
    match provider_getBalance wallet_apothem "0xabc" with
    | Ok bal => VStr (formatEther_decimal bal)
    | Throw _ => VStr "Unable to load"
    end.
Proof.
  apply (X26_mounted_load_resolves_balance formatEther_decimal world_wallet_only
           wallet_apothem "0xabc" page_on_client);
    try reflexivity; vm_compute; reflexivity.
Defined.
